(** * Offline task synchronisation: the [useTasks] hook

    A shallow embedding of [src/TaskManager/src/hooks/useTasks.tsx]: the
    local record store kept in [localStorage], the React state of the hook,
    and the five operations [fetchTasks], [createTask], [updateTask],
    [deleteTask] and [syncTasks], followed by the properties of the
    reconciliation engine.

    Conventions of the embedding.
    - [new Date().toISOString()] yields fixed-width UTC strings whose
      lexicographic order is the order of the instants; a timestamp is the
      instant, a natural number of clock units.
    - Everything the hook takes from outside (the clock, [crypto.randomUUID],
      the replies of the Supabase client) is gathered in an environment
      [Env]; the hook's own state is a [World], threaded through a state
      monad.
    - An [async] function is run to completion: the continuation after each
      [await] runs on the state the call left, with no other handler in
      between. *)

From stdpp Require Import base list strings pretty.

Open Scope string_scope.
Open Scope list_scope.
Open Scope nat_scope.

(** ** Data model *)

Definition timestamp := nat.

(** [sync_status: 'pending' | 'synced' | 'error'] *)
Inductive SyncStatus := pending | synced | error.

#[global] Instance SyncStatus_eq_dec : EqDecision SyncStatus.
Proof. solve_decision. Defined.

(** The fields shared by [Task] and [LocalTask]
    ([LocalTask extends Omit<Task, 'user_id'>]). *)
Record TaskFields := mkFields {
  id : string;
  title : string;
  description : option string;
  completed : bool;
  created_at : timestamp;
  updated_at : timestamp;
  is_deleted : bool;
  server_id : option string;
  last_synced_at : option timestamp
}.

(** [interface Task]: a row as the server returns it and as the hook
    exposes it. *)
Record Task := mkTask {
  user_id : string;
  task_fields :> TaskFields
}.

(** [interface LocalTask]: a record of the local store. *)
Record LocalTask := mkLocal {
  local_fields :> TaskFields;
  sync_status : SyncStatus
}.

(** [Partial<Pick<Task, 'title' | 'description' | 'completed'>>] *)
Record Updates := mkUpdates {
  u_title : option string;
  u_description : option (option string);
  u_completed : option bool
}.

(** Object spread with one or more overridden keys. *)
Definition with_server_id (s : option string) (f : TaskFields) : TaskFields :=
  mkFields (id f) (title f) (description f) (completed f) (created_at f)
           (updated_at f) (is_deleted f) s (last_synced_at f).

Definition with_last_synced_at (s : option timestamp) (f : TaskFields) : TaskFields :=
  mkFields (id f) (title f) (description f) (completed f) (created_at f)
           (updated_at f) (is_deleted f) (server_id f) s.

Definition with_updated_at (u : timestamp) (f : TaskFields) : TaskFields :=
  mkFields (id f) (title f) (description f) (completed f) (created_at f)
           u (is_deleted f) (server_id f) (last_synced_at f).

Definition with_is_deleted (b : bool) (f : TaskFields) : TaskFields :=
  mkFields (id f) (title f) (description f) (completed f) (created_at f)
           (updated_at f) b (server_id f) (last_synced_at f).

(** [{ ...t, ...updates }]: a key present in [updates] overrides. *)
Definition apply_updates (u : Updates) (f : TaskFields) : TaskFields :=
  mkFields (id f)
           (default (title f) (u_title u))
           (default (description f) (u_description u))
           (default (completed f) (u_completed u))
           (created_at f) (updated_at f) (is_deleted f) (server_id f)
           (last_synced_at f).

(** [{ ...task, sync_status: s }] *)
Definition with_status (s : SyncStatus) (t : LocalTask) : LocalTask :=
  mkLocal (local_fields t) s.

Definition map_fields (g : TaskFields → TaskFields) (t : LocalTask) : LocalTask :=
  mkLocal (g (local_fields t)) (sync_status t).

(** [{ ...t, user_id: user.id }] *)
Definition toTask (uid : string) (t : LocalTask) : Task :=
  mkTask uid (local_fields t).

(** JavaScript truthiness of a [string | null | undefined]: [null],
    [undefined] and the empty string are falsy. [truthy o] is [Some s] exactly
    when the value is a non-empty string [s]; it is the value of [o || null]. *)
Definition truthy (o : option string) : option string :=
  match o with
  | Some s => if bool_decide (s = "") then None else Some s
  | None => None
  end.

(** [t.id === id || t.server_id === id] *)
Definition matches (i : string) (f : TaskFields) : bool :=
  bool_decide (id f = i) || bool_decide (server_id f = Some i).

(** [l.findIndex(p)], returned together with the element [l[index]] the
    callers read next; [None] stands for [-1]. *)
Definition findIndex {A} (p : A → bool) (l : list A) : option (nat * A) :=
  list_find (λ x, p x = true) l.

(** ** The remote gateway *)

(** The payload of [insert({ title, description, completed, user_id })];
    [createTask] leaves [completed] out and passes its optional
    [description] argument as it is. *)
Record InsertRow := mkInsert {
  ins_title : string;
  ins_description : option string;
  ins_completed : option bool;
  ins_user_id : string
}.

(** The four calls the hook makes on [supabase.from('tasks')]. *)
Inductive request :=
| ReqSelect
    (* .select('*').eq('is_deleted', false).order('created_at', desc) *)
| ReqInsert (row : InsertRow)
    (* .insert(row).select().single() *)
| ReqUpdate (target : string) (u : Updates)
    (* .update(u).eq('id', target) *)
| ReqSoftDelete (target : string).
    (* .update({ is_deleted: true }).eq('id', target) *)

(** What an awaited call gives: the promise rejects (the [await] throws), or
    it resolves to [{ data, error }]. *)
Inductive Reply (A : Type) :=
| Rejected (msg : string)
| Resolved (data : option A) (err : option string).
Arguments Rejected {A} msg.
Arguments Resolved {A} data err.

Inductive toast :=
| ToastInfo (msg : string)
| ToastSuccess (msg : string)
| ToastError (msg : string).

(** The outside world. The gateway answers knowing the calls made before
    (its own state); the clock and the UUID source are indexed by the number
    of earlier reads. *)
Record Env := mkEnv {
  clock : nat → timestamp;
  randomUUID : nat → string;
  gw_select : list request → Reply (list Task);
  gw_insert : list request → InsertRow → Reply Task;
  gw_update : list request → string → Updates → Reply unit;
  gw_soft_delete : list request → string → Reply unit
}.

(** ** The state of the hook *)

Record World := mkWorld {
  user : option string;                 (* useAuth().user, by its id *)
  stored_tasks : list LocalTask;        (* localStorage['offline_tasks'] *)
  stored_last_sync : option timestamp;  (* localStorage['last_sync_timestamp'] *)
  tasks : list Task;
  loading : bool;
  isOnline : bool;
  pendingSyncCount : nat;
  lastSyncTime : option timestamp;
  toasts : list toast;                  (* oldest first *)
  console : list string;                (* console.error, oldest first *)
  net_log : list request;               (* calls issued, oldest first *)
  clock_reads : nat;
  uuid_draws : nat
}.

(** The hook at mount, before any effect has run, over an empty
    [localStorage]. *)
Definition initial_world (u : option string) (online : bool) : World :=
  mkWorld u [] None [] true online 0 None [] [] [] 0 0.

(** ** The state monad of the handlers *)

Definition M (A : Type) : Type := World → A * World.

Definition ret {A} (a : A) : M A := λ w, (a, w).

Definition bind {A B} (m : M A) (k : A → M B) : M B :=
  λ w, let (a, w') := m w in k a w'.

Notation "x <- m ;; k" := (bind m (λ x, k))
  (at level 100, m at next level, right associativity).
Notation "m ;;; k" := (bind m (λ _, k))
  (at level 100, right associativity).

Definition exec {A} (m : M A) (w : World) : World := snd (m w).

(** [for (const x of l) { v = body(x, v) }] with the loop's variables [v]. *)
Fixpoint foldM {A V} (body : A → V → M V) (l : list A) (v : V) : M V :=
  match l with
  | [] => ret v
  | x :: l' => v' <- body x v ;; foldM body l' v'
  end.

(** [l.map(f)] where [f] has effects, left to right. *)
Fixpoint mapM {A B} (f : A → M B) (l : list A) : M (list B) :=
  match l with
  | [] => ret []
  | x :: l' => y <- f x ;; ys <- mapM f l' ;; ret (y :: ys)
  end.

(** [pending.length] of [saveLocalTasks]:
    [t.sync_status === 'pending' && !t.is_deleted]. *)
Definition counts_as_pending (t : LocalTask) : bool :=
  bool_decide (sync_status t = pending) && negb (is_deleted t).

(** [t.sync_status === 'pending'] of [syncTasks]. *)
Definition is_pending (t : LocalTask) : bool :=
  bool_decide (sync_status t = pending).

Definition filterb {A} (p : A → bool) (l : list A) : list A :=
  filter (λ x, p x = true) l.

(** [loadLocalTasks]; an absent key reads as the empty list. *)
Definition loadLocalTasks : M (list LocalTask) :=
  λ w, (stored_tasks w, w).

(** [saveLocalTasks]: replaces the stored list and recomputes the counter. *)
Definition saveLocalTasks (l : list LocalTask) : M unit :=
  λ w, (tt, mkWorld (user w) l (stored_last_sync w) (tasks w) (loading w)
                    (isOnline w) (length (filterb counts_as_pending l))
                    (lastSyncTime w) (toasts w) (console w) (net_log w)
                    (clock_reads w) (uuid_draws w)).

(** [setTasks(prev => f(prev))] *)
Definition setTasks (f : list Task → list Task) : M unit :=
  λ w, (tt, mkWorld (user w) (stored_tasks w) (stored_last_sync w)
                    (f (tasks w)) (loading w) (isOnline w)
                    (pendingSyncCount w) (lastSyncTime w) (toasts w)
                    (console w) (net_log w) (clock_reads w) (uuid_draws w)).

Definition setLoading (b : bool) : M unit :=
  λ w, (tt, mkWorld (user w) (stored_tasks w) (stored_last_sync w)
                    (tasks w) b (isOnline w) (pendingSyncCount w)
                    (lastSyncTime w) (toasts w) (console w) (net_log w)
                    (clock_reads w) (uuid_draws w)).

(** [setLastSyncTime(now); localStorage.setItem(LAST_SYNC_KEY, now)] *)
Definition recordLastSync (now : timestamp) : M unit :=
  λ w, (tt, mkWorld (user w) (stored_tasks w) (Some now) (tasks w)
                    (loading w) (isOnline w) (pendingSyncCount w) (Some now)
                    (toasts w) (console w) (net_log w) (clock_reads w)
                    (uuid_draws w)).

Definition showToast (t : toast) : M unit :=
  λ w, (tt, mkWorld (user w) (stored_tasks w) (stored_last_sync w)
                    (tasks w) (loading w) (isOnline w) (pendingSyncCount w)
                    (lastSyncTime w) (toasts w ++ [t]) (console w)
                    (net_log w) (clock_reads w) (uuid_draws w)).

Definition consoleError (msg : string) : M unit :=
  λ w, (tt, mkWorld (user w) (stored_tasks w) (stored_last_sync w)
                    (tasks w) (loading w) (isOnline w) (pendingSyncCount w)
                    (lastSyncTime w) (toasts w) (console w ++ [msg])
                    (net_log w) (clock_reads w) (uuid_draws w)).

Definition getUser : M (option string) := λ w, (user w, w).
Definition getOnline : M bool := λ w, (isOnline w, w).

Section Hook.

Context (E : Env).

(** [new Date().toISOString()] *)
Definition now : M timestamp :=
  λ w, (clock E (clock_reads w),
        mkWorld (user w) (stored_tasks w) (stored_last_sync w) (tasks w)
                (loading w) (isOnline w) (pendingSyncCount w)
                (lastSyncTime w) (toasts w) (console w) (net_log w)
                (S (clock_reads w)) (uuid_draws w)).

(** [crypto.randomUUID()] *)
Definition newUUID : M string :=
  λ w, (randomUUID E (uuid_draws w),
        mkWorld (user w) (stored_tasks w) (stored_last_sync w) (tasks w)
                (loading w) (isOnline w) (pendingSyncCount w)
                (lastSyncTime w) (toasts w) (console w) (net_log w)
                (clock_reads w) (S (uuid_draws w))).

(** An awaited gateway call: the request is logged, the reply is the
    gateway's, given the earlier calls. *)
Definition call {A} (r : request) (answer : list request → Reply A) : M (Reply A) :=
  λ w, (answer (net_log w),
        mkWorld (user w) (stored_tasks w) (stored_last_sync w) (tasks w)
                (loading w) (isOnline w) (pendingSyncCount w)
                (lastSyncTime w) (toasts w) (console w) (net_log w ++ [r])
                (clock_reads w) (uuid_draws w)).

Definition supabase_select : M (Reply (list Task)) :=
  call ReqSelect (gw_select E).

Definition supabase_insert (row : InsertRow) : M (Reply Task) :=
  call (ReqInsert row) (λ h, gw_insert E h row).

Definition supabase_update (target : string) (u : Updates) : M (Reply unit) :=
  call (ReqUpdate target u) (λ h, gw_update E h target u).

Definition supabase_soft_delete (target : string) : M (Reply unit) :=
  call (ReqSoftDelete target) (λ h, gw_soft_delete E h target).

(** *** [fetchTasks] (lines 64-99) *)

(** The [catch] branch: serve what the store holds. *)
Definition fetchTasks_fallback (uid : string) (msg : string) : M unit :=
  consoleError ("Error fetching tasks: " +:+ msg) ;;;
  localTasks <- loadLocalTasks ;;
  setTasks (λ _, toTask uid <$> filterb (λ t : LocalTask, negb (is_deleted t)) localTasks).

Definition fetchTasks : M unit :=
  u <- getUser ;;
  match u with
  | None => ret tt
  | Some uid =>
      r <- supabase_select ;;
      (match r with
       | Rejected msg => fetchTasks_fallback uid msg
       | Resolved _ (Some msg) => fetchTasks_fallback uid msg
       | Resolved data None =>
           let rows := default [] data in
           setTasks (λ _, rows) ;;;
           saveLocalTasks ((λ task : Task, mkLocal (task_fields task) synced) <$> rows) ;;;
           t <- now ;;
           recordLastSync t
       end) ;;;
      setLoading false
  end.

(** *** [createTask] (lines 136-187) *)

(** The callback of [localTasks.map] after a successful insert; the clock is
    read once for each element it rewrites. *)
Definition confirm_created (newId serverId : string) (t : LocalTask) : M LocalTask :=
  if bool_decide (id t = newId) then
    ts <- now ;;
    ret (mkLocal (with_last_synced_at (Some ts) (with_server_id (Some serverId) t)) synced)
  else ret t.

Definition createTask_failed (msg : string) : M unit :=
  consoleError ("Error creating task: " +:+ msg) ;;;
  showToast (ToastError "Task saved offline. Will sync when online.").

Definition createTask (title_ : string) (description_ : option string) : M unit :=
  u <- getUser ;;
  match u with
  | None => ret tt
  | Some uid =>
      newId <- newUUID ;;
      created <- now ;;
      updated <- now ;;
      let newTask :=
        mkLocal (mkFields newId title_ (truthy description_) false created
                          updated false None None) pending in
      stored <- loadLocalTasks ;;
      let localTasks := stored ++ [newTask] in
      saveLocalTasks localTasks ;;;
      setTasks (λ prev, toTask uid newTask :: prev) ;;;
      online <- getOnline ;;
      if online : bool then
        r <- supabase_insert (mkInsert title_ description_ None uid) ;;
        match r with
        | Rejected msg => createTask_failed msg
        | Resolved _ (Some msg) => createTask_failed msg
        | Resolved None None =>
            (* [data.id] on [null] throws a TypeError *)
            createTask_failed "TypeError"
        | Resolved (Some data) None =>
            updatedLocalTasks <- mapM (confirm_created newId (id data)) localTasks ;;
            saveLocalTasks updatedLocalTasks ;;;
            showToast (ToastSuccess "Task created")
        end
      else showToast (ToastInfo "Task saved offline. Will sync when online.")
  end.

(** *** [updateTask] (lines 189-236) *)

Definition updateTask (i : string) (updates : Updates) : M unit :=
  u <- getUser ;;
  match u with
  | None => ret tt
  | Some uid =>
      localTasks <- loadLocalTasks ;;
      match findIndex (λ t : LocalTask, matches i t) localTasks with
      | None => ret tt
      | Some (taskIndex, old) =>
          ts <- now ;;
          let updatedTask :=
            mkLocal (with_updated_at ts (apply_updates updates old)) pending in
          let localTasks := <[taskIndex := updatedTask]> localTasks in
          saveLocalTasks localTasks ;;;
          setTasks (fmap (λ t : Task,
            if matches i t
            then mkTask (user_id t) (with_updated_at ts (apply_updates updates t))
            else t)) ;;;
          online <- getOnline ;;
          if online : bool then
            let serverId := default i (truthy (server_id updatedTask)) in
            r <- supabase_update serverId updates ;;
            match r with
            | Resolved _ None =>
                synced_at <- now ;;
                saveLocalTasks
                  (<[taskIndex := mkLocal (with_last_synced_at (Some synced_at) updatedTask) synced]>
                     localTasks) ;;;
                showToast (ToastSuccess "Task updated")
            | Rejected msg | Resolved _ (Some msg) =>
                consoleError ("Error updating task: " +:+ msg) ;;;
                showToast (ToastError "Update saved offline. Will sync when online.")
            end
          else showToast (ToastInfo "Update saved offline. Will sync when online.")
      end
  end.

(** *** [deleteTask] (lines 238-278) *)

Definition deleteTask (i : string) : M unit :=
  u <- getUser ;;
  match u with
  | None => ret tt
  | Some uid =>
      localTasks <- loadLocalTasks ;;
      match findIndex (λ t : LocalTask, matches i t) localTasks with
      | None => ret tt
      | Some (taskIndex, old) =>
          ts <- now ;;
          let tombstone :=
            mkLocal (with_updated_at ts (with_is_deleted true old)) pending in
          let localTasks := <[taskIndex := tombstone]> localTasks in
          saveLocalTasks localTasks ;;;
          setTasks (filterb (λ t : Task, negb (matches i t))) ;;;
          online <- getOnline ;;
          if online : bool then
            let serverId := default i (truthy (server_id tombstone)) in
            r <- supabase_soft_delete serverId ;;
            match r with
            | Resolved _ None =>
                (* Remove from local storage after successful sync *)
                saveLocalTasks (delete taskIndex localTasks) ;;;
                showToast (ToastSuccess "Task deleted")
            | Rejected msg | Resolved _ (Some msg) =>
                consoleError ("Error deleting task: " +:+ msg) ;;;
                showToast (ToastError "Deletion saved offline. Will sync when online.")
            end
          else showToast (ToastInfo "Deletion saved offline. Will sync when online.")
      end
  end.

(** *** [syncTasks] (lines 280-361) *)

(** The variables of the push loop: the array [localTasks] whose elements
    the loop writes in place, and the two counters. *)
Record SyncVars := mkVars {
  localTasks : list LocalTask;
  syncedCount : nat;
  errorCount : nat
}.

(** [const index = localTasks.findIndex(t => t.id === task.id);
     if (index !== -1) localTasks[index] = g(localTasks[index])] *)
Definition write_by_id (i : string) (g : LocalTask → LocalTask)
    (l : list LocalTask) : list LocalTask :=
  match findIndex (λ t : LocalTask, bool_decide (id t = i)) l with
  | Some (index, _) => alter g index l
  | None => l
  end.

(** What an [await] whose result is not inspected leaves: it throws when the
    promise rejects and goes on otherwise, also when the reply carries an
    [error]. *)
Definition awaited {A} (r : Reply A) (l : list LocalTask) : string + list LocalTask :=
  match r with
  | Rejected msg => inl msg
  | Resolved _ _ => inr l
  end.

(** The [try] block up to the bookkeeping: the call for one pending record.
    [inl msg] is a thrown error, [inr l] the array after the block.

    [pendingTasks] holds the very objects of [localTasks]. Each is read in
    its own iteration only, and the loop writes to the first record that
    carries the id of the task at hand, which is that task or one before it
    in the array; so no object is written before the iteration that reads it,
    and reading the values as they were when the loop started is exact. *)
Definition push_one (uid : string) (task : LocalTask) (l : list LocalTask)
    : M (string + list LocalTask) :=
  if is_deleted task then
    match truthy (server_id task) with
    | Some sid => r <- supabase_soft_delete sid ;; ret (awaited r l)
    | None => ret (inr l)
    end
  else
    match truthy (server_id task) with
    | Some sid =>
        (* Update existing *)
        r <- supabase_update sid
               (mkUpdates (Some (title task)) (Some (description task))
                          (Some (completed task))) ;;
        ret (awaited r l)
    | None =>
        (* Create new *)
        r <- supabase_insert
               (mkInsert (title task) (description task)
                         (Some (completed task)) uid) ;;
        match r with
        | Rejected msg => ret (inl msg)
        | Resolved (Some data) _ =>
            ret (inr (write_by_id (id task)
                        (map_fields (with_server_id (Some (id data)))) l))
        | Resolved None _ => ret (inr l)
        end
    end.

(** One iteration of [for (const task of pendingTasks)]. *)
Definition sync_one (uid : string) (task : LocalTask) (v : SyncVars) : M SyncVars :=
  attempt <- push_one uid task (localTasks v) ;;
  match attempt with
  | inr l =>
      l' <- match findIndex (λ t : LocalTask, bool_decide (id t = id task)) l with
            | Some (index, _) =>
                ts <- now ;;
                ret (alter (λ t : LocalTask,
                       mkLocal (with_last_synced_at (Some ts) t) synced) index l)
            | None => ret l
            end ;;
      ret (mkVars l' (S (syncedCount v)) (errorCount v))
  | inl msg =>
      consoleError ("Error syncing task " +:+ id task +:+ ": " +:+ msg) ;;;
      ret (mkVars (write_by_id (id task) (with_status error) (localTasks v))
                  (syncedCount v) (S (errorCount v)))
  end.

(** The loop over the pending records of [stored], in the order of the
    array. *)
Definition sync_loop (uid : string) (stored : list LocalTask) : M SyncVars :=
  foldM (sync_one uid) (filterb is_pending stored) (mkVars stored 0 0).

(** [`${n} task${n !== 1 ? 's' : ''}`] *)
Definition plural (n : nat) : string :=
  pretty n +:+ " task" +:+ (if bool_decide (n = 1) then "" else "s").

Definition syncTasks : M unit :=
  u <- getUser ;;
  online <- getOnline ;;
  match u, online with
  | Some uid, true =>
      stored <- loadLocalTasks ;;
      match filterb is_pending stored with
      | [] => showToast (ToastSuccess "All tasks are synced")
      | _ :: _ =>
          v <- sync_loop uid stored ;;
          saveLocalTasks (localTasks v) ;;;
          fetchTasks ;;;
          (if bool_decide (0 < syncedCount v)
           then showToast (ToastSuccess ("Synced " +:+ plural (syncedCount v)))
           else ret tt) ;;;
          (if bool_decide (0 < errorCount v)
           then showToast (ToastError (plural (errorCount v) +:+ " failed to sync"))
           else ret tt)
      end
  | _, _ => ret tt
  end.

(** *** The user-facing mutations as commands *)

Inductive UserOp :=
| OpCreate (title_ : string) (description_ : option string)
| OpUpdate (i : string) (updates : Updates)
| OpDelete (i : string).

Definition run_op (o : UserOp) : M unit :=
  match o with
  | OpCreate t d => createTask t d
  | OpUpdate i u => updateTask i u
  | OpDelete i => deleteTask i
  end.

(** A sequence of calls, each run to completion before the next. *)
Definition run_ops (os : list UserOp) : M unit :=
  foldM (λ o _, run_op o) os tt.

End Hook.

(** ** Sample environments and worlds *)

Module Sample.

(** A gateway that gives the same reply to every call of a kind; the clock
    starts at 100 and advances by one at each read; UUIDs are numbered. *)
Definition env (sel : Reply (list Task)) (ins : Reply Task)
    (upd del : Reply unit) : Env :=
  mkEnv (λ k, 100 + k) (λ k, "uuid-" +:+ pretty k)
        (λ _, sel) (λ _ _, ins) (λ _ _ _, upd) (λ _ _, del).

Definition offline_env : Env :=
  env (Rejected "Failed to fetch") (Rejected "Failed to fetch")
      (Rejected "Failed to fetch") (Rejected "Failed to fetch").

Definition row (i title_ : string) (updated : timestamp) : Task :=
  mkTask "user-1" (mkFields i title_ None false 10 updated false None None).

Definition local (i title_ : string) (updated : timestamp)
    (sid : option string) (s : SyncStatus) : LocalTask :=
  mkLocal (mkFields i title_ None false 10 updated false sid None) s.

(** A signed-in hook over a given store. *)
Definition world (l : list LocalTask) (online : bool) : World :=
  mkWorld (Some "user-1") l None [] false online
          (length (filterb counts_as_pending l)) None [] [] [] 0 0.

End Sample.

(** ** Predicates of the properties *)

(** The ids of a store, in order. *)
Definition ids (l : list LocalTask) : list string :=
  (λ t : LocalTask, id t) <$> l.

(** The fetch of a pull fails when the promise rejects or the reply carries
    an [error] (which [fetchTasks] rethrows). *)
Definition fetch_failed (r : Reply (list Task)) : Prop :=
  match r with
  | Rejected _ => True
  | Resolved _ (Some _) => True
  | Resolved _ None => False
  end.

(** [{ ...task, sync_status: 'synced' }] over the rows of a reply. *)
Definition as_synced (rows : list Task) : list LocalTask :=
  (λ task : Task, mkLocal (task_fields task) synced) <$> rows.

(** A pull leaves a record alone when the store after it still holds a
    record of that id with the same title, description, completed flag and
    sync status. *)
Definition survives_pull (E : Env) (w : World) (t : LocalTask) : Prop :=
  ∃ t' : LocalTask,
    t' ∈ stored_tasks (exec (fetchTasks E) w) ∧ id t' = id t ∧
    title t' = title t ∧ description t' = description t ∧
    completed t' = completed t ∧ sync_status t' = sync_status t.

Module PullSample.

(** Task "X" is pending locally with title "X-edited"; the server still has
    "X-old". *)
Definition env : Env :=
  Sample.env (Resolved (Some [Sample.row "X" "X-old" 20]) None)
             (Rejected "unused") (Rejected "unused") (Rejected "unused").

Definition edited : LocalTask :=
  Sample.local "X" "X-edited" 50 (Some "X") pending.

Definition world : World := Sample.world [edited] true.

End PullSample.


(** The counter shown to the user agrees with the store. *)
Definition counter_agrees (w : World) : Prop :=
  pendingSyncCount w = length (filterb counts_as_pending (stored_tasks w)).

(** The records that carry mutations not yet confirmed by the server,
    pending deletions included. *)
Definition unsynced (t : LocalTask) : bool :=
  negb (bool_decide (sync_status t = synced)).

(** Every record marked [synced] has a [server_id]. *)
Definition synced_has_server_id (l : list LocalTask) : Prop :=
  ∀ t : LocalTask, t ∈ l → sync_status t = synced → server_id t ≠ None.

(** What the user edits and sees of a record: all of it but the sync
    bookkeeping ([server_id], [last_synced_at], [sync_status]). *)
Definition content (t : LocalTask)
    : string * string * option string * bool * timestamp * timestamp * bool :=
  (id t, title t, description t, completed t, created_at t, updated_at t,
   is_deleted t).

(** The record [createTask] builds (lines 139-150), in the state the call
    starts from. *)
Definition new_task (E : Env) (w : World) (title_ : string)
    (description_ : option string) : LocalTask :=
  mkLocal (mkFields (randomUUID E (uuid_draws w)) title_ (truthy description_)
                    false (clock E (clock_reads w)) (clock E (S (clock_reads w)))
                    false None None) pending.

(** The record [updateTask] writes at the index it found (lines 197-202). *)
Definition updated_task (E : Env) (w : World) (updates : Updates)
    (old : LocalTask) : LocalTask :=
  mkLocal (with_updated_at (clock E (clock_reads w)) (apply_updates updates old))
          pending.

(** The record [deleteTask] writes at the index it found (lines 246-251). *)
Definition tombstone_of (E : Env) (w : World) (old : LocalTask) : LocalTask :=
  mkLocal (with_updated_at (clock E (clock_reads w)) (with_is_deleted true old))
          pending.


(** A record after the confirmation pass of [createTask] (line 175): left
    alone, or stamped with a server id and marked [synced]. *)
Definition confirmed (t t' : LocalTask) : Prop :=
  t' = t ∨
  ∃ (sid : string) (ts : timestamp),
    t' = mkLocal (with_last_synced_at (Some ts) (with_server_id (Some sid) t)) synced.

(** [updated_at] does not decrease from [old] to [new], record by record
    (records are matched by [id]). *)
Definition updated_at_mono (old new : list LocalTask) : Prop :=
  ∀ t t' : LocalTask, t ∈ old → t' ∈ new → id t = id t' →
    updated_at t ≤ updated_at t'.

(** The clock is not behind any timestamp of the store. *)
Definition clock_ahead (E : Env) (w : World) : Prop :=
  ∀ (t : LocalTask) (k : nat), t ∈ stored_tasks w → clock_reads w ≤ k →
    updated_at t ≤ clock E k.

(** The world after [n] more reads of the clock. *)
Definition advance_clock (n : nat) (w : World) : World :=
  mkWorld (user w) (stored_tasks w) (stored_last_sync w) (tasks w)
          (loading w) (isOnline w) (pendingSyncCount w) (lastSyncTime w)
          (toasts w) (console w) (net_log w) (n + clock_reads w)
          (uuid_draws w).

(** The call the push loop makes for a pending record, [None] when it makes
    none (a deletion of a record that has no server id). *)
Definition request_of (uid : string) (task : LocalTask) : option request :=
  if is_deleted task then ReqSoftDelete <$> truthy (server_id task)
  else
    match truthy (server_id task) with
    | Some sid =>
        Some (ReqUpdate sid (mkUpdates (Some (title task)) (Some (description task))
                                       (Some (completed task))))
    | None =>
        Some (ReqInsert (mkInsert (title task) (description task)
                                  (Some (completed task)) uid))
    end.

Definition is_rejected {A} (r : Reply A) : bool :=
  match r with
  | Rejected _ => true
  | Resolved _ _ => false
  end.

(** Whether the call the push loop makes for a record rejects, when the
    calls [h] were made before it. *)
Definition rejects (E : Env) (uid : string) (task : LocalTask)
    (h : list request) : bool :=
  if is_deleted task then
    match truthy (server_id task) with
    | Some sid => is_rejected (gw_soft_delete E h sid)
    | None => false
    end
  else
    match truthy (server_id task) with
    | Some sid =>
        is_rejected (gw_update E h sid
          (mkUpdates (Some (title task)) (Some (description task))
                     (Some (completed task))))
    | None =>
        is_rejected (gw_insert E h
          (mkInsert (title task) (description task) (Some (completed task)) uid))
    end.

Definition is_success {A} (r : Reply A) : bool :=
  match r with
  | Resolved _ None => true
  | _ => false
  end.

(** Whether the call the push loop makes for a record resolves without an
    error, when the calls [h] were made before it. *)
Definition succeeds (E : Env) (uid : string) (task : LocalTask)
    (h : list request) : bool :=
  if is_deleted task then
    match truthy (server_id task) with
    | Some sid => is_success (gw_soft_delete E h sid)
    | None => false
    end
  else
    match truthy (server_id task) with
    | Some sid =>
        is_success (gw_update E h sid
          (mkUpdates (Some (title task)) (Some (description task))
                     (Some (completed task))))
    | None =>
        is_success (gw_insert E h
          (mkInsert (title task) (description task) (Some (completed task)) uid))
    end.

Module PushSample.

(** Two tasks created offline, never pushed. *)
Definition store : list LocalTask :=
  [Sample.local "a" "A" 50 None pending; Sample.local "b" "B" 60 None pending].

Definition world : World := Sample.world store true.

(** The gateway rejects the first insert of a pass with "ValidationError"
    and accepts the later ones; the fetch after the pass fails. *)
Definition partial : Env :=
  mkEnv (λ k, 100 + k) (λ k, "uuid-" +:+ pretty k)
        (λ _, Rejected "Failed to fetch")
        (λ h row,
           match h with
           | [] => Rejected "ValidationError"
           | _ :: _ => Resolved (Some (Sample.row "srv-b" (ins_title row) 70)) None
           end)
        (λ _ _ _, Resolved None None)
        (λ _ _, Resolved None None).

(** Every insert rejects with the given message. *)
Definition failing (msg : string) : Env :=
  Sample.env (Rejected "Failed to fetch") (Rejected msg)
             (Resolved None None) (Resolved None None).

(** Every insert resolves to [{ data: null, error }]. *)
Definition refusing : Env :=
  Sample.env (Rejected "Failed to fetch") (Resolved None (Some "ValidationError"))
             (Resolved None None) (Resolved None None).

(** Every call resolves without an error; an insert returns a row. *)
Definition accepting : Env :=
  Sample.env (Rejected "Failed to fetch")
             (Resolved (Some (Sample.row "srv-1" "A" 70)) None)
             (Resolved None None) (Resolved None None).

(** A task created and deleted offline, never pushed. *)
Definition tombstone : LocalTask :=
  mkLocal (mkFields "a" "A" None false 50 60 true None None) pending.

End PushSample.

(** The message of a failed push is kept on the record at index [k] when it
    can be read back from the record the loop leaves there. *)
Definition failure_message_recorded (stored : list LocalTask) (w : World)
    (k : nat) : Prop :=
  ∃ read : LocalTask → string,
    ∀ msg : string,
      ∃ t' : LocalTask,
        localTasks (fst (sync_loop (PushSample.failing msg) "user-1" stored w)) !! k
          = Some t'
        ∧ sync_status t' = error
        ∧ read t' = msg.

Module OfflineSample.

(** Signed in, offline, over an empty store. *)
Definition start : World := initial_world (Some "user-1") false.

(** After "A" was created offline. *)
Definition created : World :=
  exec (createTask Sample.offline_env "A" None) start.

(** Create "A", then delete it, never going online. *)
Definition create_then_delete : list UserOp :=
  [OpCreate "A" None; OpDelete "uuid-0"].

End OfflineSample.

(** ** The rest of the hook and its callers *)

(** [setIsOnline(b)] *)
Definition setIsOnline (b : bool) : M unit :=
  λ w, (tt, mkWorld (user w) (stored_tasks w) (stored_last_sync w) (tasks w)
                    (loading w) b (pendingSyncCount w) (lastSyncTime w)
                    (toasts w) (console w) (net_log w) (clock_reads w)
                    (uuid_draws w)).

Definition getPendingSyncCount : M nat := λ w, (pendingSyncCount w, w).

Section Effects.

Context (E : Env).

(** The effect "Auto-sync when coming online" (lines 129-134). *)
Definition autoSync : M unit :=
  online <- getOnline ;;
  u <- getUser ;;
  pending <- getPendingSyncCount ;;
  if online && bool_decide (is_Some u) && bool_decide (0 < pending)
  then
    showToast (ToastInfo "Connection restored. Syncing tasks...") ;;;
    syncTasks E
  else ret tt.

(** The listener of the window's [online] event (line 38). The effect above
    has [isOnline] among its dependencies: it runs after the render in which
    the flag changed, and only then. *)
Definition handleOnline : M unit :=
  before <- getOnline ;;
  setIsOnline true ;;;
  if before : bool then ret tt else autoSync.

(** The listener of the window's [offline] event (line 39). *)
Definition handleOffline : M unit :=
  before <- getOnline ;;
  setIsOnline false ;;;
  if before : bool then autoSync else ret tt.

(** The callback of the change subscription (lines 117-119),
    [setTimeout(() => fetchTasks(), 0)]; the same effect calls [fetchTasks]
    when the hook mounts (line 105). *)
Definition onRemoteChange : M unit := fetchTasks E.

(** What can happen to a mounted hook. *)
Inductive Event :=
| EvMutation (o : UserOp)   (* createTask / updateTask / deleteTask *)
| EvSyncNow                 (* the "Sync Now" button: syncTasks *)
| EvRefresh                 (* mount, or a change notification *)
| EvOnline
| EvOffline.

Definition run_event (e : Event) : M unit :=
  match e with
  | EvMutation o => run_op E o
  | EvSyncNow => syncTasks E
  | EvRefresh => onRemoteChange
  | EvOnline => handleOnline
  | EvOffline => handleOffline
  end.

Definition run_events (es : list Event) : M unit :=
  foldM (λ e _, run_event e) es tt.

(** *** [TaskItem] (its handlers call [updateTask] and [deleteTask] with the
    id of the task shown) *)

(** [onUpdate(task.id, { completed: !task.completed })] *)
Definition handleToggleComplete (task : Task) : M unit :=
  updateTask E (id task) (mkUpdates None None (Some (negb (completed task)))).


(** [onDelete(task.id)] *)
Definition handleDelete (task : Task) : M unit := deleteTask E (id task).

End Effects.

(** *** [Index]: the two tabs *)

(** [tasks.filter(t => !t.completed)] *)
Definition activeTasks (ts : list Task) : list Task :=
  filterb (λ t : Task, negb (completed t)) ts.

(** [tasks.filter(t => t.completed)] *)
Definition completedTasks (ts : list Task) : list Task :=
  filterb (λ t : Task, completed t) ts.

(** *** [SyncStatus]: the badge next to the connectivity icon *)

Inductive SyncBadge :=
| BadgePending (n : nat)   (* "{pendingSyncCount} pending" *)
| BadgeAllSynced.          (* "All synced" *)

(** [pendingSyncCount > 0 ? ... : ...] *)
Definition syncBadge (pendingSyncCount_ : nat) : SyncBadge :=
  if bool_decide (0 < pendingSyncCount_) then BadgePending pendingSyncCount_
  else BadgeAllSynced.

(** ** Predicates of the further properties *)

(** The state a pull leaves for a signed-in user (lines 67-98). *)
Definition pull_result (E : Env) (uid : string) (w : World) : World :=
  match gw_select E (net_log w) with
  | Resolved data None =>
      let rows := default [] data in
      mkWorld (user w) (as_synced rows) (Some (clock E (clock_reads w))) rows
              false (isOnline w) (length (filterb counts_as_pending (as_synced rows)))
              (Some (clock E (clock_reads w))) (toasts w) (console w)
              (net_log w ++ [ReqSelect]) (S (clock_reads w)) (uuid_draws w)
  | Rejected msg | Resolved _ (Some msg) =>
      mkWorld (user w) (stored_tasks w) (stored_last_sync w)
              (toTask uid <$> filterb (λ t : LocalTask, negb (is_deleted t))
                                      (stored_tasks w))
              false (isOnline w) (pendingSyncCount w) (lastSyncTime w)
              (toasts w) (console w ++ ["Error fetching tasks: " +:+ msg])
              (net_log w ++ [ReqSelect]) (clock_reads w) (uuid_draws w)
  end.

(** The fields of the state that only sign-in, connectivity events, pulls and
    writes to the store change. *)
Definition same_session (w w' : World) : Prop :=
  user w' = user w ∧ stored_tasks w' = stored_tasks w
  ∧ stored_last_sync w' = stored_last_sync w ∧ tasks w' = tasks w
  ∧ loading w' = loading w ∧ isOnline w' = isOnline w
  ∧ pendingSyncCount w' = pendingSyncCount w
  ∧ lastSyncTime w' = lastSyncTime w ∧ toasts w' = toasts w
  ∧ uuid_draws w' = uuid_draws w.

(** The visible list a mutation leaves (lines 157, 207-209 and 254). *)
Definition visible_after (E : Env) (uid : string) (w : World) (o : UserOp)
    : list Task :=
  match o with
  | OpCreate t d => toTask uid (new_task E w t d) :: tasks w
  | OpUpdate i u =>
      match findIndex (λ t : LocalTask, matches i t) (stored_tasks w) with
      | Some _ =>
          (λ t : Task,
             if matches i t
             then mkTask (user_id t)
                         (with_updated_at (clock E (clock_reads w)) (apply_updates u t))
             else t) <$> tasks w
      | None => tasks w
      end
  | OpDelete i =>
      match findIndex (λ t : LocalTask, matches i t) (stored_tasks w) with
      | Some _ => filterb (λ t : Task, negb (matches i t)) (tasks w)
      | None => tasks w
      end
  end.

(** The call a mutation makes when the hook believes it is online (lines
    161-169, 213-217 and 258-262); [None] when it finds no target. *)
Definition mutation_request (uid : string) (w : World) (o : UserOp)
    : option request :=
  match o with
  | OpCreate t d => Some (ReqInsert (mkInsert t d None uid))
  | OpUpdate i u =>
      match findIndex (λ t : LocalTask, matches i t) (stored_tasks w) with
      | Some (_, old) => Some (ReqUpdate (default i (truthy (server_id old))) u)
      | None => None
      end
  | OpDelete i =>
      match findIndex (λ t : LocalTask, matches i t) (stored_tasks w) with
      | Some (_, old) => Some (ReqSoftDelete (default i (truthy (server_id old))))
      | None => None
      end
  end.

(** The server id the push loop writes on a record: the id of the row that
    the insert of a never-pushed, live record returns. *)
Definition assigned_server_id (E : Env) (uid : string) (task : LocalTask)
    (h : list request) : option string :=
  if is_deleted task then None
  else
    match truthy (server_id task) with
    | Some _ => None
    | None =>
        match gw_insert E h (mkInsert (title task) (description task)
                                      (Some (completed task)) uid) with
        | Resolved (Some data) _ => Some (id data)
        | _ => None
        end
    end.

(** The record one iteration of the push loop leaves for [task], when the
    calls [h] were made before it and the clock reads [ts] (lines 294-349). *)
Definition push_result (E : Env) (uid : string) (task : LocalTask)
    (h : list request) (ts : timestamp) : LocalTask :=
  if rejects E uid task h then with_status error task
  else
    mkLocal (with_last_synced_at (Some ts)
               (match assigned_server_id E uid task h with
                | Some sid => with_server_id (Some sid) task
                | None => local_fields task
                end))
            synced.

(** The gateway honours the filter [.eq('is_deleted', false)] of the
    select. *)
Definition select_filters_deleted (E : Env) : Prop :=
  ∀ (h : list request) (data : option (list Task)) (err : option string)
    (row : Task),
    gw_select E h = Resolved data err → row ∈ default [] data →
    is_deleted row = false.

(** No task of the visible list is marked deleted. *)
Definition shows_no_deleted (w : World) : Prop :=
  ∀ t : Task, t ∈ tasks w → is_deleted t = false.

(** The last-sync time shown is the persisted one. *)
Definition last_sync_coherent (w : World) : Prop :=
  lastSyncTime w = stored_last_sync w.

Module ViewSample.

(** One task, pushed earlier as "srv-a", in the store and on the page. *)
Definition stored : LocalTask := Sample.local "a" "A" 50 (Some "srv-a") synced.

Definition shown : Task := toTask "user-1" stored.

Definition world : World :=
  mkWorld (Some "user-1") [stored] None [shown] false true 0 None [] [] [] 0 0.

(** A store whose unsynced records are a pending deletion and a failed
    push. *)
Definition stale : World :=
  Sample.world [PushSample.tombstone; Sample.local "e" "E" 55 None error] false.

End ViewSample.

(** ** Properties *)

(** Unfolds the primitive actions of the state monad. *)
Ltac run :=
  unfold exec, bind, ret, getUser, getOnline, loadLocalTasks, saveLocalTasks,
    setTasks, setLoading, recordLastSync, showToast, consoleError, now,
    newUUID, supabase_select, supabase_insert, supabase_update,
    supabase_soft_delete, call in *;
  simpl in *.

Section Lookup.

Lemma matches_spec (i : string) (f : TaskFields) :
  matches i f = true ↔ id f = i ∨ server_id f = Some i.
Proof.
  unfold matches. rewrite orb_true_iff, !bool_decide_eq_true. tauto.
Qed.

Lemma findIndex_None {A} (p : A → bool) (l : list A) :
  findIndex p l = None ↔ ∀ x, x ∈ l → p x = false.
Proof.
  unfold findIndex. rewrite list_find_None, Forall_forall.
  split; intros H x Hx; specialize (H x Hx); destruct (p x); congruence.
Qed.

Lemma findIndex_Some {A} (p : A → bool) (l : list A) (k : nat) (x : A) :
  findIndex p l = Some (k, x) ↔
  l !! k = Some x ∧ p x = true ∧ ∀ j y, l !! j = Some y → j < k → p y = false.
Proof.
  unfold findIndex. rewrite list_find_Some.
  split; intros (Hk & Hp & Hmin); repeat split; auto; intros j y Hj Hlt.
  - specialize (Hmin j y Hj Hlt). destruct (p y); congruence.
  - rewrite (Hmin j y Hj Hlt). discriminate.
Qed.

(** The target of [updateTask] and [deleteTask] is the first record whose
    [id] or whose [server_id] is the identifier. *)
Lemma target_is_first_match (i : string) (l : list LocalTask) (k : nat)
    (t : LocalTask) :
  findIndex (λ x : LocalTask, matches i x) l = Some (k, t) ↔
  l !! k = Some t ∧ (id t = i ∨ server_id t = Some i) ∧
  ∀ (j : nat) (y : LocalTask), l !! j = Some y → j < k →
    id y ≠ i ∧ server_id y ≠ Some i.
Proof.
  rewrite findIndex_Some, matches_spec.
  split; intros (Hk & Hm & Hmin); (split; [done|]); (split; [done|]);
    intros j y Hj Hlt; specialize (Hmin j y Hj Hlt).
  - split; intros Hid;
      (assert (matches i y = true) by (apply matches_spec; tauto)); congruence.
  - destruct (matches i y) eqn:Hy; [|done].
    apply matches_spec in Hy. tauto.
Qed.

(** With one record per id, the search by id finds the record itself. *)
Lemma findIndex_id_NoDup (l : list LocalTask) (k : nat) (t : LocalTask) :
  NoDup (ids l) → l !! k = Some t →
  findIndex (λ x : LocalTask, bool_decide (id x = id t)) l = Some (k, t).
Proof.
  intros Hnd Hk. apply findIndex_Some. split; [done|]. split.
  - by apply bool_decide_eq_true.
  - intros j y Hj Hlt. apply bool_decide_eq_false. intros Heq.
    assert (j = k); [|lia].
    apply (NoDup_lookup (ids l) j k (id t) Hnd); unfold ids;
      rewrite list_lookup_fmap; [rewrite Hj | rewrite Hk]; simpl; congruence.
Qed.

(** Removing the element just written is removing the element. *)
Lemma delete_after_insert {A} (l : list A) (k : nat) (x : A) :
  delete k (<[k := x]> l) = delete k l.
Proof.
  revert k. induction l as [|y l IH]; intros [|k]; simpl; try done.
  f_equal. apply IH.
Qed.

Lemma elem_of_insert_inv {A} (l : list A) (k : nat) (x y : A) :
  y ∈ <[k := x]> l → y = x ∨ y ∈ l.
Proof.
  intros (j & Hj)%list_elem_of_lookup. rewrite list_lookup_insert in Hj.
  case_decide; [left; congruence | right].
  apply list_elem_of_lookup. eauto.
Qed.

End Lookup.

(** ** Pull *)

Section Pull.

Context (E : Env).

Lemma fetchTasks_store (uid : string) (w : World) :
  user w = Some uid →
  stored_tasks (exec (fetchTasks E) w) =
    match gw_select E (net_log w) with
    | Resolved data None => as_synced (default [] data)
    | _ => stored_tasks w
    end.
Proof.
  intros Hu. unfold fetchTasks, fetchTasks_fallback. run. rewrite Hu.
  destruct (gw_select E (net_log w)) as [msg | data [msg|]]; reflexivity.
Qed.

(** C4. When the fetch of a pull fails (the call rejects, or the reply
    carries an error), the task list handed to the caller is exactly the
    records of the local store that are not deleted, in store order, and the
    persisted state (the stored list, the last-sync stamp) and the pending
    counter are what they were. *)
Theorem failed_pull_serves_local_store (uid : string) (w : World) :
  user w = Some uid →
  fetch_failed (gw_select E (net_log w)) →
  let w' := exec (fetchTasks E) w in
  tasks w' = toTask uid <$> filterb (λ t : LocalTask, negb (is_deleted t)) (stored_tasks w)
  ∧ stored_tasks w' = stored_tasks w
  ∧ stored_last_sync w' = stored_last_sync w
  ∧ pendingSyncCount w' = pendingSyncCount w.
Proof.
  intros Hu Hfail. unfold fetchTasks, fetchTasks_fallback. run. rewrite Hu.
  destruct (gw_select E (net_log w)) as [msg | data [msg|]];
    simpl in *; try done.
Qed.

(** C1, as the code has it. For a signed-in user, a pull whose fetch
    succeeds replaces the whole local store by the rows of the reply, each
    marked [synced], whatever the sync status of the records it held; the
    stored records, pending and error ones included, stay as they were only
    when the fetch fails. *)
Theorem pull_replaces_store (uid : string) (w : World) :
  user w = Some uid →
  stored_tasks (exec (fetchTasks E) w) =
    match gw_select E (net_log w) with
    | Resolved data None => as_synced (default [] data)
    | _ => stored_tasks w
    end
  ∧ ∀ t : LocalTask, t ∈ stored_tasks (exec (fetchTasks E) w) →
      fetch_failed (gw_select E (net_log w)) ∨ sync_status t = synced.
Proof.
  intros Hu. split; [by apply (fetchTasks_store uid)|].
  intros t. rewrite (fetchTasks_store uid w Hu).
  destruct (gw_select E (net_log w)) as [msg | data [msg|]]; simpl; auto.
  intros Ht. right. unfold as_synced in Ht.
  apply list_elem_of_fmap in Ht as (row & -> & _). reflexivity.
Qed.

End Pull.

Lemma failed_pull_serves_local_store_witness :
  let w := Sample.world [Sample.local "a" "A" 50 None pending] false in
  let w' := exec (fetchTasks Sample.offline_env) w in
  tasks w' = toTask "user-1" <$>
               filterb (λ t : LocalTask, negb (is_deleted t)) (stored_tasks w)
  ∧ stored_tasks w' = stored_tasks w
  ∧ stored_last_sync w' = stored_last_sync w
  ∧ pendingSyncCount w' = pendingSyncCount w.
Proof.
  intros w.
  apply (failed_pull_serves_local_store Sample.offline_env "user-1" w);
    [reflexivity | exact I].
Defined.

(** C1 as stated fails: the pending edit "X-edited" does not survive a
    successful pull that reports "X-old". *)
Lemma pull_overwrites_pending_edit :
  PullSample.edited ∈ stored_tasks PullSample.world
  ∧ sync_status PullSample.edited = pending
  ∧ ¬ fetch_failed (gw_select PullSample.env (net_log PullSample.world))
  ∧ stored_tasks (exec (fetchTasks PullSample.env) PullSample.world)
      = [Sample.local "X" "X-old" 20 None synced]
  ∧ ¬ survives_pull PullSample.env PullSample.world PullSample.edited.
Proof.
  split; [by apply list_elem_of_here|]. split; [reflexivity|].
  split; [by intros []|]. split; [reflexivity|].
  intros (t' & Hin & _ & Htitle & _).
  change (t' ∈ [Sample.local "X" "X-old" 20 None synced]) in Hin.
  apply list_elem_of_singleton in Hin. subst t'. discriminate Htitle.
Qed.

Lemma pull_replaces_store_witness :
  stored_tasks (exec (fetchTasks PullSample.env) PullSample.world) =
    match gw_select PullSample.env (net_log PullSample.world) with
    | Resolved data None => as_synced (default [] data)
    | _ => stored_tasks PullSample.world
    end
  ∧ ∀ t : LocalTask,
      t ∈ stored_tasks (exec (fetchTasks PullSample.env) PullSample.world) →
      fetch_failed (gw_select PullSample.env (net_log PullSample.world))
      ∨ sync_status t = synced.
Proof.
  apply (pull_replaces_store PullSample.env "user-1" PullSample.world).
  reflexivity.
Defined.

(** ** The user-facing mutations *)

Section Mutations.

Context (E : Env).

(** The confirmation pass only reads the clock. *)
Lemma mapM_confirm_created (newId sid : string) (l : list LocalTask) (w : World) :
  ∃ (n : nat) (l' : list LocalTask),
    mapM (confirm_created E newId sid) l w = (l', advance_clock n w) ∧
    Forall2 confirmed l l'.
Proof.
  revert w. induction l as [|t l IH]; intros w.
  - exists 0, []. split; [by destruct w | constructor].
  - simpl. unfold bind. unfold confirm_created at 1.
    destruct (bool_decide (id t = newId)); run.
    + match goal with
      | |- context [mapM _ l ?w0] => destruct (IH w0) as (n & l' & -> & HF)
      end.
      exists (S n), (mkLocal (with_last_synced_at (Some (clock E (clock_reads w)))
                        (with_server_id (Some sid) t)) synced :: l').
      split.
      * unfold advance_clock. simpl. do 2 f_equal. lia.
      * constructor; [|done]. right. eauto.
    + destruct (IH w) as (n & l' & -> & HF).
      exists n, (t :: l'). split; [done|].
      constructor; [by left | done].
Qed.

Lemma confirmed_content (l l' : list LocalTask) :
  Forall2 confirmed l l' → content <$> l' = content <$> l.
Proof.
  induction 1 as [|t t' l l' Hc _ IH]; [done|].
  rewrite !fmap_cons, IH. f_equal.
  by destruct Hc as [-> | (sid & ts & ->)].
Qed.

(** The store [createTask] leaves. *)
Lemma createTask_store (uid : string) (w : World) (title_ : string)
    (description_ : option string) :
  user w = Some uid →
  Forall2 confirmed (stored_tasks w ++ [new_task E w title_ description_])
          (stored_tasks (exec (createTask E title_ description_) w)).
Proof.
  intros Hu. unfold createTask, createTask_failed. run. rewrite Hu.
  fold (new_task E w title_ description_).
  set (l := stored_tasks w ++ [new_task E w title_ description_]).
  assert (Hrefl : Forall2 confirmed l l).
  { apply Forall2_same_length_lookup_2; [done|].
    intros k x y Hx Hy. left. congruence. }
  destruct (isOnline w); [|done].
  match goal with
  | |- context [gw_insert E ?h ?r] =>
      destruct (gw_insert E h r) as [msg | [data|] [msg|]]; try done
  end.
  match goal with
  | |- context [mapM _ ?l0 ?w0] =>
      destruct (mapM_confirm_created (randomUUID E (uuid_draws w)) (id data) l0 w0)
        as (n & l' & -> & HF)
  end.
  exact HF.
Qed.

(** The store [updateTask] leaves when it finds its target. *)
Lemma updateTask_store (uid i : string) (updates : Updates) (w : World)
    (k : nat) (old : LocalTask) :
  user w = Some uid →
  findIndex (λ t : LocalTask, matches i t) (stored_tasks w) = Some (k, old) →
  stored_tasks (exec (updateTask E i updates) w)
    = <[k := updated_task E w updates old]> (stored_tasks w)
  ∨ ∃ ts : timestamp,
      stored_tasks (exec (updateTask E i updates) w)
        = <[k := mkLocal (with_last_synced_at (Some ts) (updated_task E w updates old))
                         synced]> (stored_tasks w).
Proof.
  intros Hu Hf. unfold updateTask. run. rewrite Hu, Hf. simpl.
  fold (updated_task E w updates old).
  destruct (isOnline w); [|by left].
  match goal with
  | |- context [gw_update E ?h ?r ?u] =>
      destruct (gw_update E h r u) as [msg | data [msg|]]; simpl; try by left
  end.
  right. eexists. by rewrite list_insert_insert_eq.
Qed.

(** The store [deleteTask] leaves when it finds its target. *)
Lemma deleteTask_store (uid i : string) (w : World) (k : nat) (old : LocalTask) :
  user w = Some uid →
  findIndex (λ t : LocalTask, matches i t) (stored_tasks w) = Some (k, old) →
  stored_tasks (exec (deleteTask E i) w)
    = <[k := tombstone_of E w old]> (stored_tasks w)
  ∨ stored_tasks (exec (deleteTask E i) w) = delete k (stored_tasks w).
Proof.
  intros Hu Hf. unfold deleteTask. run. rewrite Hu, Hf. simpl.
  fold (tombstone_of E w old).
  destruct (isOnline w); [|by left].
  match goal with
  | |- context [gw_soft_delete E ?h ?r] =>
      destruct (gw_soft_delete E h r) as [msg | data [msg|]]; simpl; try by left
  end.
  right. apply delete_after_insert.
Qed.

(** Without a signed-in user the three mutations return at once. *)
Lemma run_op_signed_out (o : UserOp) (w : World) :
  user w = None → run_op E o w = (tt, w).
Proof.
  intros Hu. destruct o; unfold run_op, createTask, updateTask, deleteTask;
    run; by rewrite Hu.
Qed.

(** Every write of a mutation goes through [saveLocalTasks], so the counter
    follows the store, whatever the network does. *)
Lemma run_op_counter (o : UserOp) (w : World) :
  counter_agrees w → counter_agrees (exec (run_op E o) w).
Proof.
  intros Hc. destruct (user w) as [uid|] eqn:Hu;
    [|unfold exec; by rewrite run_op_signed_out].
  destruct o as [t d | i u | i]; unfold run_op.
  - unfold createTask, createTask_failed. run. rewrite Hu.
    destruct (isOnline w); [|done].
    match goal with
    | |- context [gw_insert E ?h ?r] =>
        destruct (gw_insert E h r) as [msg | [data|] [msg|]]; try done
    end.
    match goal with
    | |- context [mapM _ ?l0 ?w0] =>
        destruct (mapM_confirm_created (randomUUID E (uuid_draws w)) (id data) l0 w0)
          as (n & l' & -> & HF)
    end.
    done.
  - unfold updateTask. run. rewrite Hu.
    destruct (findIndex _ (stored_tasks w)) as [[k old]|]; [|done]. simpl.
    destruct (isOnline w); [|done].
    match goal with
    | |- context [gw_update E ?h ?r ?u] =>
        destruct (gw_update E h r u) as [msg | data [msg|]]; done
    end.
  - unfold deleteTask. run. rewrite Hu.
    destruct (findIndex _ (stored_tasks w)) as [[k old]|]; [|done]. simpl.
    destruct (isOnline w); [|done].
    match goal with
    | |- context [gw_soft_delete E ?h ?r] =>
        destruct (gw_soft_delete E h r) as [msg | data [msg|]]; done
    end.
Qed.

(** C7, as the code has it. After any sequence of create, update and delete
    calls (offline in particular), the pending counter is the number of
    stored records whose status is [pending] and that are not marked
    deleted, provided the counter agreed with the store when the sequence
    started. A pending deletion stays in the store and is not counted. *)
Theorem pending_count_tracks_store (os : list UserOp) (w : World) :
  counter_agrees w → counter_agrees (exec (run_ops E os) w).
Proof.
  revert w. induction os as [|o os IH]; intros w Hc; [done|].
  unfold run_ops, exec. simpl. unfold bind.
  pose proof (run_op_counter o w Hc) as H1. unfold exec in H1.
  destruct (run_op E o w) as [[] w1]. simpl in H1.
  apply (IH w1 H1).
Qed.

(** C6, as the code has it. [createTask] and [deleteTask] keep the
    invariant "a record marked [synced] has a [server_id]", in every network
    state and whatever the gateway replies. *)
Theorem create_delete_keep_synced_invariant (w : World) (title_ : string)
    (description_ : option string) (i : string) :
  synced_has_server_id (stored_tasks w) →
  synced_has_server_id (stored_tasks (exec (createTask E title_ description_) w))
  ∧ synced_has_server_id (stored_tasks (exec (deleteTask E i) w)).
Proof.
  intros Hinv. destruct (user w) as [uid|] eqn:Hu.
  2:{ pose proof (run_op_signed_out (OpCreate title_ description_) w Hu) as H1.
      pose proof (run_op_signed_out (OpDelete i) w Hu) as H2.
      simpl in H1, H2. unfold exec. by rewrite H1, H2. }
  split.
  - pose proof (createTask_store uid w title_ description_ Hu) as HF.
    intros t' (k & Hk)%list_elem_of_lookup Hs.
    destruct (Forall2_lookup_r _ _ _ _ _ HF Hk) as (t & Ht & [-> | (sid & ts & ->)]);
      [|done].
    apply lookup_app_Some in Ht as [Ht | [_ Ht]].
    + apply Hinv; [|done]. apply list_elem_of_lookup. eauto.
    + apply list_lookup_singleton_Some in Ht as [_ <-]. discriminate Hs.
  - destruct (findIndex (λ t : LocalTask, matches i t) (stored_tasks w))
      as [[k old]|] eqn:Hf.
    + destruct (deleteTask_store uid i w k old Hu Hf) as [-> | ->];
        intros t' Ht' Hs.
      * apply elem_of_insert_inv in Ht' as [-> | Ht']; [discriminate Hs|].
        by apply Hinv.
      * apply list_elem_of_delete_inv in Ht'. by apply Hinv.
    + assert (deleteTask E i w = (tt, w)) as Hnop.
      { unfold deleteTask. run. by rewrite Hu, Hf. }
      unfold exec. by rewrite Hnop.
Qed.


(** C3, as the code has it. Deleting, while offline, a record that was never
    pushed does not purge it: the record stays in the store as a tombstone
    (marked deleted, [pending], [updated_at] bumped), it leaves the visible
    task list, and the deletion makes no network call. A later push pass
    makes no network call for such a tombstone either. *)
Theorem offline_delete_keeps_tombstone (uid i : string) (w : World)
    (k : nat) (old : LocalTask) :
  user w = Some uid →
  isOnline w = false →
  findIndex (λ t : LocalTask, matches i t) (stored_tasks w) = Some (k, old) →
  server_id old = None →
  let w' := exec (deleteTask E i) w in
  stored_tasks w' = <[k := tombstone_of E w old]> (stored_tasks w)
  ∧ stored_tasks w' !! k = Some (tombstone_of E w old)
  ∧ tasks w' = filterb (λ t : Task, negb (matches i t)) (tasks w)
  ∧ net_log w' = net_log w
  ∧ ∀ (l : list LocalTask) (w2 : World),
      push_one E uid (tombstone_of E w old) l w2 = (inr l, w2).
Proof.
  intros Hu Hoff Hf Hsid. simpl.
  assert (stored_tasks (exec (deleteTask E i) w)
            = <[k := tombstone_of E w old]> (stored_tasks w)
          ∧ tasks (exec (deleteTask E i) w)
            = filterb (λ t : Task, negb (matches i t)) (tasks w)
          ∧ net_log (exec (deleteTask E i) w) = net_log w) as (Hs & Ht & Hn).
  { unfold deleteTask. run. rewrite Hu, Hf. simpl. by rewrite Hoff. }
  repeat split; try done.
  - rewrite Hs. apply list_lookup_insert_eq.
    apply findIndex_Some in Hf as (Hk & _). by apply lookup_lt_Some in Hk.
  - intros l w2. unfold push_one, tombstone_of. simpl. by rewrite Hsid.
Qed.

End Mutations.

(** ** Push *)

Section Push.

Context (E : Env).

Lemma ids_insert (l : list LocalTask) (k : nat) (t t' : LocalTask) :
  l !! k = Some t → id t' = id t → ids (<[k := t']> l) = ids l.
Proof.
  intros Hk Hid. unfold ids. rewrite list_fmap_insert, Hid.
  apply list_insert_id. by rewrite list_lookup_fmap, Hk.
Qed.

Lemma alter_lookup {A} (g : A → A) (l : list A) (k : nat) (x : A) :
  l !! k = Some x → alter g k l = <[k := g x]> l.
Proof.
  intros Hk. apply list_eq. intros j.
  pose proof (lookup_lt_Some _ _ _ Hk) as Hlt.
  destruct (decide (k = j)) as [<- | Hne].
  - by rewrite list_lookup_alter_eq, list_lookup_insert_eq, Hk.
  - by rewrite list_lookup_alter_ne, list_lookup_insert_ne.
Qed.

(** With one record per id, the write by id lands on the record at hand. *)
Lemma write_by_id_NoDup (g : LocalTask → LocalTask) (l : list LocalTask)
    (k : nat) (t : LocalTask) :
  NoDup (ids l) → l !! k = Some t →
  write_by_id (id t) g l = <[k := g t]> l.
Proof.
  intros Hnd Hk. unfold write_by_id.
  rewrite (findIndex_id_NoDup l k t Hnd Hk). by apply alter_lookup.
Qed.

(** The [try] block of one iteration: one call at most is logged; the block
    throws exactly when that call rejects, and otherwise rewrites at most the
    record at hand, keeping its content. *)
Lemma push_one_spec (uid : string) (task : LocalTask) (l : list LocalTask)
    (k : nat) (w : World) :
  NoDup (ids l) → l !! k = Some task →
  ∃ (a : string + list LocalTask) (w' : World),
    push_one E uid task l w = (a, w')
    ∧ user w' = user w
    ∧ net_log w' = net_log w ++ option_list (request_of uid task)
    ∧ match a with
      | inl _ => rejects E uid task (net_log w) = true
      | inr l2 =>
          rejects E uid task (net_log w) = false
          ∧ ∃ t2 : LocalTask, l2 = <[k := t2]> l ∧ content t2 = content task
      end.
Proof.
  intros Hnd Hk.
  assert (Hid : l = <[k := task]> l) by (symmetry; by apply list_insert_id).
  unfold push_one, request_of, rejects, awaited.
  destruct (is_deleted task), (truthy (server_id task)) as [sid|]; run.
  - destruct (gw_soft_delete E (net_log w) sid); simpl; eauto 10.
  - destruct w; simpl. rewrite app_nil_r. eauto 10.
  - match goal with
    | |- context [gw_update E ?h ?r ?u] => destruct (gw_update E h r u)
    end; simpl; eauto 10.
  - match goal with
    | |- context [gw_insert E ?h ?r] =>
        destruct (gw_insert E h r) as [msg | [data|] err]
    end; simpl; eauto 10.
    rewrite (write_by_id_NoDup _ l k task Hnd Hk).
    do 2 eexists. repeat split. eauto.
Qed.

Lemma content_id (t t' : LocalTask) : content t' = content t → id t' = id t.
Proof. unfold content. congruence. Qed.

Lemma content_updated_at (t t' : LocalTask) :
  content t' = content t → updated_at t' = updated_at t.
Proof. unfold content. congruence. Qed.

(** One iteration: the record at hand is rewritten in place, marked [error]
    and otherwise untouched when its call rejects, marked [synced] with its
    content kept when it does not; exactly one counter goes up. *)
Lemma sync_one_spec (uid : string) (task : LocalTask) (l : list LocalTask)
    (s e k : nat) (w : World) :
  NoDup (ids l) → l !! k = Some task →
  ∃ (t' : LocalTask) (w' : World),
    sync_one E uid task (mkVars l s e) w =
      (mkVars (<[k := t']> l)
              (if rejects E uid task (net_log w) then s else S s)
              (if rejects E uid task (net_log w) then S e else e), w')
    ∧ user w' = user w
    ∧ net_log w' = net_log w ++ option_list (request_of uid task)
    ∧ content t' = content task
    ∧ if rejects E uid task (net_log w)
      then t' = with_status error task
      else sync_status t' = synced.
Proof.
  intros Hnd Hk.
  destruct (push_one_spec uid task l k w Hnd Hk) as (a & w1 & Hp & Hu & Hn & Ha).
  unfold sync_one, bind. simpl. rewrite Hp.
  destruct a as [msg | l2].
  - rewrite Ha. run. rewrite (write_by_id_NoDup _ l k task Hnd Hk).
    eexists _, _. split; [reflexivity|]. simpl. by rewrite Hu, Hn.
  - destruct Ha as (Hr & t2 & -> & Hc). rewrite Hr.
    pose proof (content_id _ _ Hc) as Hid.
    assert (Hk2 : <[k := t2]> l !! k = Some t2).
    { apply list_lookup_insert_eq. by apply lookup_lt_Some in Hk. }
    assert (Hnd2 : NoDup (ids (<[k := t2]> l))).
    { by rewrite (ids_insert l k task t2 Hk Hid). }
    rewrite <- Hid. rewrite (findIndex_id_NoDup _ k t2 Hnd2 Hk2).
    run. rewrite (alter_lookup _ _ k t2 Hk2), list_insert_insert_eq.
    eexists _, _. split; [reflexivity|]. simpl.
    rewrite Hu, Hn. repeat split; done.
Qed.

Lemma omap_take_cons (uid : string) (t : LocalTask) (ps : list LocalTask)
    (h : list request) (p : nat) :
  (h ++ option_list (request_of uid t)) ++ omap (request_of uid) (take p ps)
  = h ++ omap (request_of uid) (take (S p) (t :: ps)).
Proof.
  rewrite <- app_assoc. f_equal. simpl.
  by destruct (request_of uid t).
Qed.

(** The loop over a list [ps] of records of the array [l], one record per
    id. *)
Lemma sync_fold_spec (uid : string) (ps : list LocalTask) :
  ∀ (l : list LocalTask) (s e : nat) (w : World),
  NoDup (ids l) → NoDup (ids ps) → (∀ t : LocalTask, t ∈ ps → t ∈ l) →
  ∃ (v' : SyncVars) (w' : World),
    foldM (sync_one E uid) ps (mkVars l s e) w = (v', w')
    ∧ user w' = user w
    ∧ net_log w' = net_log w ++ omap (request_of uid) ps
    ∧ syncedCount v' + errorCount v' = s + e + length ps
    ∧ content <$> localTasks v' = content <$> l
    ∧ (∀ (k : nat) (t : LocalTask),
         l !! k = Some t → id t ∉ ids ps → localTasks v' !! k = Some t)
    ∧ (∀ (p k : nat) (t : LocalTask),
         ps !! p = Some t → l !! k = Some t →
         ∃ t' : LocalTask,
           localTasks v' !! k = Some t'
           ∧ content t' = content t
           ∧ if rejects E uid t (net_log w ++ omap (request_of uid) (take p ps))
             then t' = with_status error t
             else sync_status t' = synced).
Proof.
  induction ps as [|t0 ps IH]; intros l s e w Hnd Hps Hin.
  - exists (mkVars l s e), w. simpl. rewrite app_nil_r.
    do 3 (split; [done|]). split; [lia|]. do 2 (split; [done|]).
    intros p k t Hp. by destruct p.
  - assert (t0 ∈ l) as (k0 & Hk0)%list_elem_of_lookup
      by (apply Hin; apply list_elem_of_here).
    apply NoDup_cons in Hps as [Hfresh Hps].
    destruct (sync_one_spec uid t0 l s e k0 w Hnd Hk0)
      as (t0' & w1 & Hstep & Hu1 & Hn1 & Hc0 & Hres).
    pose proof (content_id _ _ Hc0) as Hid0.
    set (l1 := <[k0 := t0']> l) in *.
    assert (Hother : ∀ (k : nat) (t : LocalTask),
              l !! k = Some t → id t ≠ id t0 → l1 !! k = Some t).
    { intros k t Hk Hne. unfold l1. rewrite list_lookup_insert_ne; [done|].
      intros ->. rewrite Hk0 in Hk. congruence. }
    assert (Hids1 : ids l1 = ids l) by (by apply (ids_insert l k0 t0 t0')).
    assert (Hinps : ∀ t : LocalTask, t ∈ ps → id t ≠ id t0).
    { intros t Ht Heq. apply Hfresh. unfold ids. rewrite <- Heq.
      by apply (list_elem_of_fmap_2 (λ t : LocalTask, id t)). }
    destruct (IH l1 (if rejects E uid t0 (net_log w) then s else S s)
                 (if rejects E uid t0 (net_log w) then S e else e) w1)
      as (v' & w' & Hfold & Hu & Hn & Hcount & Hcont & Hkeep & Hdone).
    { by rewrite Hids1. }
    { done. }
    { intros t Ht.
      assert (t ∈ l) as (k & Hk)%list_elem_of_lookup
        by (apply Hin; by apply list_elem_of_further).
      apply list_elem_of_lookup. exists k. apply Hother; [done|]. by apply Hinps. }
    exists v', w'. simpl. unfold bind. rewrite Hstep.
    split; [done|]. split; [congruence|]. split.
    { rewrite Hn, Hn1, <- app_assoc. f_equal.
      by destruct (request_of uid t0). }
    split.
    { rewrite Hcount. destruct (rejects E uid t0 (net_log w)); lia. }
    split.
    { rewrite Hcont. unfold l1. rewrite list_fmap_insert, Hc0.
      apply list_insert_id. by rewrite list_lookup_fmap, Hk0. }
    split.
    + intros k t Hk Hnot. apply Hkeep.
      * apply Hother; [done|]. intros Heq. apply Hnot.
        rewrite Heq. apply list_elem_of_here.
      * intros Hin'. apply Hnot. by apply list_elem_of_further.
    + intros p k t Hp Hk. destruct p as [|p]; simpl in Hp.
      * injection Hp as ->.
        assert (k = k0) as ->.
        { apply (NoDup_lookup (ids l) k k0 (id t) Hnd); unfold ids;
            rewrite list_lookup_fmap; [by rewrite Hk | by rewrite Hk0]. }
        exists t0'. split.
        { apply Hkeep.
          - unfold l1. apply list_lookup_insert_eq. by apply lookup_lt_Some in Hk0.
          - by rewrite Hid0. }
        split; [done|]. simpl. by rewrite app_nil_r.
      * assert (Hne : id t ≠ id t0)
          by (apply Hinps; by apply list_elem_of_lookup_2 in Hp).
        destruct (Hdone p k t Hp (Hother k t Hk Hne)) as (t' & Hk' & Hc' & Hres').
        exists t'. split; [done|]. split; [done|].
        by rewrite Hn1, omap_take_cons in Hres'.
Qed.

Lemma NoDup_ids_inj (l : list LocalTask) (t t' : LocalTask) :
  NoDup (ids l) → t ∈ l → t' ∈ l → id t = id t' → t = t'.
Proof.
  intros Hnd (k & Hk)%list_elem_of_lookup (k' & Hk')%list_elem_of_lookup Hid.
  assert (k = k') as ->; [|congruence].
  apply (NoDup_lookup (ids l) k k' (id t) Hnd); unfold ids;
    rewrite list_lookup_fmap; [by rewrite Hk | rewrite Hk'; simpl; congruence].
Qed.

Lemma pending_sublist (l : list LocalTask) :
  NoDup (ids l) → NoDup (ids (filterb is_pending l)).
Proof.
  intros Hnd. apply (sublist_NoDup _ (ids l)); [done|].
  unfold ids, filterb. apply fmap_sublist, sublist_filter.
Qed.

Lemma elem_of_pending (l : list LocalTask) (t : LocalTask) :
  t ∈ filterb is_pending l ↔ is_pending t = true ∧ t ∈ l.
Proof.
  unfold filterb.
  apply (list_elem_of_filter (λ x : LocalTask, is_pending x = true)).
Qed.

Lemma succeeds_not_rejects (uid : string) (t : LocalTask) (h : list request) :
  succeeds E uid t h = true → rejects E uid t h = false.
Proof.
  unfold succeeds, rejects.
  destruct (is_deleted t), (truthy (server_id t)); try done;
    match goal with |- context [is_success ?r] => by destruct r end.
Qed.

(** The push loop over a store with one record per id. *)
Lemma sync_loop_spec (uid : string) (stored : list LocalTask) (w : World) :
  NoDup (ids stored) →
  ∃ (v : SyncVars) (w' : World),
    sync_loop E uid stored w = (v, w')
    ∧ user w' = user w
    ∧ net_log w' = net_log w ++ omap (request_of uid) (filterb is_pending stored)
    ∧ syncedCount v + errorCount v = length (filterb is_pending stored)
    ∧ content <$> localTasks v = content <$> stored
    ∧ (∀ (k : nat) (t : LocalTask),
         stored !! k = Some t → is_pending t = false →
         localTasks v !! k = Some t)
    ∧ (∀ (p k : nat) (t : LocalTask),
         filterb is_pending stored !! p = Some t → stored !! k = Some t →
         ∃ t' : LocalTask,
           localTasks v !! k = Some t'
           ∧ content t' = content t
           ∧ if rejects E uid t
                  (net_log w ++ omap (request_of uid)
                                     (take p (filterb is_pending stored)))
             then t' = with_status error t
             else sync_status t' = synced).
Proof.
  intros Hnd.
  destruct (sync_fold_spec uid (filterb is_pending stored) stored 0 0 w Hnd
              (pending_sublist stored Hnd))
    as (v & w' & Hfold & Hu & Hn & Hcount & Hcont & Hkeep & Hdone).
  { intros t Ht. by apply elem_of_pending in Ht as [_ Ht]. }
  exists v, w'. unfold sync_loop. repeat split; try done.
  intros k t Hk Hnp. apply Hkeep; [done|].
  intros (t2 & Hid & Ht2)%list_elem_of_fmap.
  apply elem_of_pending in Ht2 as [Hp2 Hin2].
  assert (t = t2) as ->; [|congruence].
  apply (NoDup_ids_inj stored); try done.
  apply list_elem_of_lookup. eauto.
Qed.

(** After the loop no record is [pending]. *)
Lemma sync_loop_none_pending (uid : string) (stored : list LocalTask) (w : World) :
  NoDup (ids stored) →
  filterb is_pending (localTasks (fst (sync_loop E uid stored w))) = [].
Proof.
  intros Hnd.
  destruct (sync_loop_spec uid stored w Hnd)
    as (v & w' & -> & _ & _ & _ & Hcont & Hkeep & Hdone).
  simpl. apply elem_of_nil_inv. intros t' Ht'.
  apply elem_of_pending in Ht' as [Hp (k & Hk)%list_elem_of_lookup].
  assert (is_Some (stored !! k)) as [t Ht].
  { apply lookup_lt_is_Some. apply lookup_lt_Some in Hk.
    apply (f_equal length) in Hcont. rewrite !length_fmap in Hcont. lia. }
  destruct (is_pending t) eqn:Hpt.
  - assert (t ∈ filterb is_pending stored) as (p & Hpi)%list_elem_of_lookup.
    { apply elem_of_pending. split; [done|]. apply list_elem_of_lookup. eauto. }
    destruct (Hdone p k t Hpi Ht) as (t2 & Hk2 & _ & Hres).
    assert (t2 = t') as -> by congruence.
    unfold is_pending in Hp. apply bool_decide_eq_true in Hp.
    destruct (rejects E uid t _); [subst t'; discriminate Hp | congruence].
  - rewrite (Hkeep k t Ht Hpt) in Hk. congruence.
Qed.

(** C5, as the code has it. Over a store with one record per id, the push
    loop makes its calls for the pending records in the order of the store,
    the same calls whether earlier ones failed or not; a record that is not
    pending is left as it is; a pending record whose call rejects is marked
    [error] and is otherwise unchanged (no message is kept on it), a pending
    record whose call resolves without an error is marked [synced], and in
    all cases it keeps its content; the two counters add up to the number
    of pending records. *)
Theorem push_loop_isolates_failures (uid : string) (stored : list LocalTask)
    (w : World) :
  NoDup (ids stored) →
  let ps := filterb is_pending stored in
  let v := fst (sync_loop E uid stored w) in
  let w' := snd (sync_loop E uid stored w) in
  net_log w' = net_log w ++ omap (request_of uid) ps
  ∧ syncedCount v + errorCount v = length ps
  ∧ (∀ (k : nat) (t : LocalTask),
       stored !! k = Some t → is_pending t = false → localTasks v !! k = Some t)
  ∧ (∀ (p k : nat) (t : LocalTask),
       ps !! p = Some t → stored !! k = Some t →
       let h := net_log w ++ omap (request_of uid) (take p ps) in
       ∃ t' : LocalTask,
         localTasks v !! k = Some t'
         ∧ content t' = content t
         ∧ (rejects E uid t h = true → t' = with_status error t)
         ∧ (succeeds E uid t h = true → sync_status t' = synced)).
Proof.
  intros Hnd. simpl.
  destruct (sync_loop_spec uid stored w Hnd)
    as (v & w' & -> & _ & Hn & Hcount & _ & Hkeep & Hdone).
  simpl. repeat split; try done.
  intros p k t Hp Hk.
  destruct (Hdone p k t Hp Hk) as (t' & Hk' & Hc & Hres).
  exists t'. repeat split; try done.
  - intros Hr. by rewrite Hr in Hres.
  - intros Hs. by rewrite (succeeds_not_rejects _ _ _ Hs) in Hres.
Qed.

(** The store a push pass leaves when it has something to push. *)
Lemma syncTasks_store (uid : string) (w : World) :
  user w = Some uid → isOnline w = true →
  filterb is_pending (stored_tasks w) ≠ [] →
  NoDup (ids (stored_tasks w)) →
  filterb is_pending (stored_tasks (exec (syncTasks E) w)) = [].
Proof.
  intros Hu Hon Hne Hnd.
  pose proof (sync_loop_none_pending uid (stored_tasks w) w Hnd) as Hnone.
  destruct (sync_loop_spec uid (stored_tasks w) w Hnd)
    as (v & w2 & Hloop & Hu2 & _).
  rewrite Hloop in Hnone. simpl in Hnone.
  unfold syncTasks. run. rewrite Hu, Hon.
  destruct (filterb is_pending (stored_tasks w)) as [|t0 ps] eqn:Hps; [done|].
  rewrite Hloop.
  match goal with
  | |- context [fetchTasks E ?w3] =>
      pose proof (fetchTasks_store E uid w3) as Hf;
      destruct (fetchTasks E w3) as [[] w4] eqn:Hfetch
  end.
  unfold exec in Hf. rewrite Hfetch in Hf. simpl in Hf.
  specialize (Hf (eq_trans Hu2 Hu)).
  assert (Hw4 : filterb is_pending (stored_tasks w4) = []).
  { rewrite Hf.
    match goal with
    | |- context [gw_select E ?h] =>
        destruct (gw_select E h) as [msg | data [msg|]]; try done
    end.
    apply elem_of_nil_inv. intros t Ht.
    apply elem_of_pending in Ht as [Hp Ht]. unfold as_synced in Ht.
    apply list_elem_of_fmap in Ht as (row & -> & _). discriminate Hp. }
  destruct (bool_decide (0 < syncedCount v)),
           (bool_decide (0 < errorCount v)); simpl; exact Hw4.
Qed.

(** C2. Over a store with one record per id, once a push pass has run (for
    a signed-in user, online), whether or not its calls succeeded, no record
    of the store is [pending]; so a second pass right after it, whatever the
    gateway would then reply, makes no network call and leaves the store as
    it is. *)
Theorem second_push_is_noop (E2 : Env) (uid : string) (w : World) :
  user w = Some uid → isOnline w = true →
  NoDup (ids (stored_tasks w)) →
  let w1 := exec (syncTasks E) w in
  filterb is_pending (stored_tasks w1) = []
  ∧ net_log (exec (syncTasks E2) w1) = net_log w1
  ∧ stored_tasks (exec (syncTasks E2) w1) = stored_tasks w1.
Proof.
  intros Hu Hon Hnd. simpl.
  assert (Hnone : filterb is_pending (stored_tasks (exec (syncTasks E) w)) = []).
  { destruct (filterb is_pending (stored_tasks w)) as [|t0 ps] eqn:Hps.
    - unfold syncTasks. run. by rewrite Hu, Hon, Hps.
    - apply (syncTasks_store uid); try done. by rewrite Hps. }
  split; [done|].
  set (w1 := exec (syncTasks E) w) in *.
  unfold syncTasks. run.
  destruct (user w1), (isOnline w1); try done. by rewrite Hnone.
Qed.

End Push.

(** ** Timestamps *)

Section Timestamps.

Context (E : Env).

Lemma mono_from_pieces (l l' : list LocalTask) :
  NoDup (ids l) →
  (∀ t' : LocalTask, t' ∈ l' →
     (∃ t0 : LocalTask, t0 ∈ l ∧ content t' = content t0)
     ∨ (∀ t : LocalTask, t ∈ l → updated_at t ≤ updated_at t')) →
  updated_at_mono l l'.
Proof.
  intros Hnd H t t' Ht Ht' Hid.
  destruct (H t' Ht') as [(t0 & Ht0 & Hc) | Hall]; [|by apply Hall].
  assert (t = t0) as ->.
  { apply (NoDup_ids_inj l); try done.
    rewrite Hid. by apply content_id. }
  by rewrite (content_updated_at _ _ Hc).
Qed.

Lemma content_fmap_elem (l l' : list LocalTask) (t' : LocalTask) :
  content <$> l' = content <$> l → t' ∈ l' →
  ∃ t0 : LocalTask, t0 ∈ l ∧ content t' = content t0.
Proof.
  intros Hc (k & Hk)%list_elem_of_lookup.
  assert (Hk' : (content <$> l) !! k = Some (content t')).
  { by rewrite <- Hc, list_lookup_fmap, Hk. }
  rewrite list_lookup_fmap in Hk'.
  destruct (l !! k) as [t0|] eqn:Ht0; [|done].
  exists t0. split; [apply list_elem_of_lookup; eauto|].
  simpl in Hk'. congruence.
Qed.

(** C8, as the code has it. Over a store with one record per id, and with a
    clock that is not behind the timestamps of the store, a create, update or
    delete call never lowers the [updated_at] of a record, in any network
    state; and the push loop leaves every [updated_at] as it is. *)
Theorem updated_at_never_decreases_locally (uid : string) (o : UserOp)
    (w : World) :
  NoDup (ids (stored_tasks w)) →
  clock_ahead E w →
  updated_at_mono (stored_tasks w) (stored_tasks (exec (run_op E o) w))
  ∧ updated_at_mono (stored_tasks w)
      (localTasks (fst (sync_loop E uid (stored_tasks w) w))).
Proof.
  intros Hnd Hclock. split.
  - apply mono_from_pieces; [done|]. intros t' Ht'.
    destruct (user w) as [u|] eqn:Hu.
    2:{ unfold exec in Ht'. rewrite run_op_signed_out in Ht' by done.
        left. by exists t'. }
    destruct o as [ti d | i up | i]; simpl in Ht'.
    + pose proof (confirmed_content _ _ (createTask_store E u w ti d Hu)) as Hc.
      destruct (content_fmap_elem _ _ t' Hc Ht') as (t0 & Ht0 & Hc0).
      apply elem_of_app in Ht0 as [Ht0 | Ht0]; [left; eauto|].
      apply list_elem_of_singleton in Ht0. subst t0. right.
      intros t Ht. rewrite (content_updated_at _ _ Hc0). simpl.
      apply Hclock; [done | lia].
    + destruct (findIndex (λ t : LocalTask, matches i t) (stored_tasks w))
        as [[k old]|] eqn:Hf.
      * destruct (updateTask_store E u i up w k old Hu Hf) as [Hs | [ts Hs]];
          rewrite Hs in Ht';
          (apply elem_of_insert_inv in Ht' as [-> | Ht']; [|left; eauto]);
          right; intros t Ht; simpl; by apply Hclock.
      * assert (updateTask E i up w = (tt, w)) as Hnop.
        { unfold updateTask. run. by rewrite Hu, Hf. }
        unfold exec in Ht'. rewrite Hnop in Ht'. left. by exists t'.
    + destruct (findIndex (λ t : LocalTask, matches i t) (stored_tasks w))
        as [[k old]|] eqn:Hf.
      * destruct (deleteTask_store E u i w k old Hu Hf) as [Hs | Hs];
          rewrite Hs in Ht'.
        -- apply elem_of_insert_inv in Ht' as [-> | Ht']; [|left; eauto].
           right. intros t Ht. simpl. by apply Hclock.
        -- apply list_elem_of_delete_inv in Ht'. left. eauto.
      * assert (deleteTask E i w = (tt, w)) as Hnop.
        { unfold deleteTask. run. by rewrite Hu, Hf. }
        unfold exec in Ht'. rewrite Hnop in Ht'. left. by exists t'.
  - destruct (sync_loop_spec E uid (stored_tasks w) w Hnd)
      as (v & w' & -> & _ & _ & _ & Hcont & _).
    simpl. apply mono_from_pieces; [done|]. intros t' Ht'. left.
    by apply (content_fmap_elem _ (localTasks v)).
Qed.

End Timestamps.

(** ** The properties on the sample runs *)

Lemma sample_store_NoDup : NoDup (ids PushSample.store).
Proof. apply (bool_decide_unpack _). by vm_compute. Qed.

Lemma pending_count_tracks_store_witness :
  counter_agrees
    (exec (run_ops Sample.offline_env
             [OpCreate "A" None;
              OpUpdate "uuid-0" (mkUpdates (Some "A2") None (Some true));
              OpCreate "B" (Some "b");
              OpDelete "uuid-0"])
          OfflineSample.start).
Proof.
  apply (pending_count_tracks_store Sample.offline_env). reflexivity.
Defined.

(** C7 as stated fails: after a create and a delete made offline the store
    holds one record with an unsynced mutation, the pending deletion, and the
    counter shows none. *)
Lemma pending_deletion_not_counted :
  let w' := exec (run_ops Sample.offline_env OfflineSample.create_then_delete)
                 OfflineSample.start in
  isOnline w' = false
  ∧ length (filterb unsynced (stored_tasks w')) = 1
  ∧ pendingSyncCount w' = 0
  ∧ pendingSyncCount w' ≠ length (filterb unsynced (stored_tasks w')).
Proof. by vm_compute. Qed.

Lemma create_delete_keep_synced_invariant_witness :
  let w := Sample.world [Sample.local "a" "A" 50 (Some "srv-a") synced] true in
  synced_has_server_id
    (stored_tasks (exec (createTask PushSample.accepting "B" None) w))
  ∧ synced_has_server_id
      (stored_tasks (exec (deleteTask PushSample.accepting "a") w)).
Proof.
  intros w. apply (create_delete_keep_synced_invariant PushSample.accepting w).
  intros t Ht _. simpl in Ht. apply list_elem_of_singleton in Ht. by subst t.
Defined.

(** C6 as stated fails. A pull stores a server row whose [server_id] column
    is empty as a [synced] record without [server_id]; a push pass marks a
    deletion that never reached the server [synced]; an update made online
    on a record that was never pushed marks it [synced]. *)
Lemma synced_without_server_id :
  (synced_has_server_id (stored_tasks (Sample.world [] true))
   ∧ ¬ synced_has_server_id
         (stored_tasks (exec (fetchTasks PullSample.env) (Sample.world [] true))))
  ∧ (synced_has_server_id [PushSample.tombstone]
     ∧ ¬ synced_has_server_id
           (localTasks (fst (sync_loop PushSample.accepting "user-1"
                               [PushSample.tombstone]
                               (Sample.world [PushSample.tombstone] true)))))
  ∧ (synced_has_server_id (stored_tasks PushSample.world)
     ∧ ¬ synced_has_server_id
           (stored_tasks (exec (updateTask PushSample.accepting "a"
                                  (mkUpdates (Some "A2") None None))
                               PushSample.world))).
Proof.
  repeat split.
  - intros t Ht. by apply elem_of_nil in Ht.
  - intros H.
    apply (H (Sample.local "X" "X-old" 20 None synced)); [|done..].
    by apply list_elem_of_here.
  - intros t Ht Hs. apply list_elem_of_singleton in Ht. by subst t.
  - intros H.
    apply (H (mkLocal (mkFields "a" "A" None false 50 60 true None (Some 100))
                      synced)); [|done..].
    by apply list_elem_of_here.
  - intros t Ht Hs. simpl in Ht.
    repeat (apply elem_of_cons in Ht as [-> | Ht]; [discriminate Hs|]).
    by apply elem_of_nil in Ht.
  - intros H.
    apply (H (mkLocal (mkFields "a" "A2" None false 10 100 false None (Some 101))
                      synced)); [|done..].
    by apply list_elem_of_here.
Qed.


Lemma offline_delete_keeps_tombstone_witness :
  let w := OfflineSample.created in
  let old := new_task Sample.offline_env OfflineSample.start "A" None in
  let w' := exec (deleteTask Sample.offline_env "uuid-0") w in
  stored_tasks w' = <[0 := tombstone_of Sample.offline_env w old]> (stored_tasks w)
  ∧ stored_tasks w' !! 0 = Some (tombstone_of Sample.offline_env w old)
  ∧ tasks w' = filterb (λ t : Task, negb (matches "uuid-0" t)) (tasks w)
  ∧ net_log w' = net_log w
  ∧ ∀ (l : list LocalTask) (w2 : World),
      push_one Sample.offline_env "user-1"
               (tombstone_of Sample.offline_env w old) l w2 = (inr l, w2).
Proof.
  intros w old.
  apply (offline_delete_keeps_tombstone Sample.offline_env "user-1" "uuid-0"
           w 0 old); reflexivity.
Defined.

(** C3 as stated fails: a task created and deleted without ever going
    online is still in the store after the deletion. *)
Lemma never_pushed_delete_is_retained :
  let w' := exec (run_ops Sample.offline_env OfflineSample.create_then_delete)
                 OfflineSample.start in
  net_log w' = []
  ∧ ∃ t : LocalTask,
      t ∈ stored_tasks w' ∧ id t = "uuid-0" ∧ is_deleted t = true
      ∧ server_id t = None.
Proof.
  split; [reflexivity|].
  exists (mkLocal (mkFields "uuid-0" "A" None false 100 102 true None None) pending).
  split; [|done]. by apply list_elem_of_here.
Qed.

Lemma push_loop_isolates_failures_witness :
  let v := fst (sync_loop PushSample.partial "user-1" PushSample.store
                          PushSample.world) in
  let w' := snd (sync_loop PushSample.partial "user-1" PushSample.store
                           PushSample.world) in
  net_log w' = net_log PushSample.world
               ++ omap (request_of "user-1") (filterb is_pending PushSample.store)
  ∧ syncedCount v + errorCount v = length (filterb is_pending PushSample.store).
Proof.
  destruct (push_loop_isolates_failures PushSample.partial "user-1"
              PushSample.store PushSample.world sample_store_NoDup)
    as (Hlog & Hcount & _).
  split; assumption.
Defined.

(** The partial failure of the sample, step by step: the first record is
    marked [error], the second is pushed all the same and marked [synced]
    with its server id; one success and one failure are counted. *)
Example partial_batch_failure :
  sync_loop PushSample.partial "user-1" PushSample.store PushSample.world
  = (mkVars [Sample.local "a" "A" 50 None error;
             mkLocal (mkFields "b" "B" None false 10 60 false (Some "srv-b")
                               (Some 100)) synced] 1 1,
     mkWorld (Some "user-1") PushSample.store None [] false true 2 None []
             ["Error syncing task a: ValidationError"]
             [ReqInsert (mkInsert "A" None (Some false) "user-1");
              ReqInsert (mkInsert "B" None (Some false) "user-1")] 1 0).
Proof. reflexivity. Qed.

(** When the gateway's reply carries an error instead of rejecting, the loop
    does not see it: both records are counted as synced and neither gets a
    server id. *)
Example reply_error_is_counted_as_synced :
  fst (sync_loop PushSample.refusing "user-1" PushSample.store PushSample.world)
  = mkVars [mkLocal (mkFields "a" "A" None false 10 50 false None (Some 100)) synced;
            mkLocal (mkFields "b" "B" None false 10 60 false None (Some 101)) synced]
           2 0.
Proof. reflexivity. Qed.

(** C5 as stated fails: the message of a failed push is not kept on the
    record. Whatever the message, the loop leaves the same record. *)
Lemma failure_message_not_recorded :
  ¬ failure_message_recorded PushSample.store PushSample.world 0.
Proof.
  intros (read & H).
  destruct (H "ValidationError") as (t1 & Ht1 & _ & Hr1).
  destruct (H "TransportError") as (t2 & Ht2 & _ & Hr2).
  vm_compute in Ht1, Ht2.
  assert (t1 = t2) as -> by congruence.
  rewrite Hr1 in Hr2. discriminate Hr2.
Qed.

Lemma second_push_is_noop_witness :
  let w1 := exec (syncTasks PushSample.partial) PushSample.world in
  filterb is_pending (stored_tasks w1) = []
  ∧ net_log (exec (syncTasks PushSample.accepting) w1) = net_log w1
  ∧ stored_tasks (exec (syncTasks PushSample.accepting) w1) = stored_tasks w1.
Proof.
  apply (second_push_is_noop PushSample.partial PushSample.accepting "user-1"
           PushSample.world); [reflexivity | reflexivity | ].
  exact sample_store_NoDup.
Defined.

Lemma updated_at_never_decreases_locally_witness :
  updated_at_mono (stored_tasks PushSample.world)
    (stored_tasks (exec (run_op PushSample.accepting (OpDelete "b"))
                        PushSample.world))
  ∧ updated_at_mono (stored_tasks PushSample.world)
      (localTasks (fst (sync_loop PushSample.accepting "user-1"
                          (stored_tasks PushSample.world) PushSample.world))).
Proof.
  apply (updated_at_never_decreases_locally PushSample.accepting "user-1"
           (OpDelete "b") PushSample.world).
  - exact sample_store_NoDup.
  - intros t k Ht _. simpl in Ht.
    repeat (apply elem_of_cons in Ht as [-> | Ht]; [simpl; lia|]).
    by apply elem_of_nil in Ht.
Defined.

(** C8 as stated fails: the record "X", edited locally at 50, carries the
    server's older timestamp 20 after a successful pull. *)
Lemma pull_lowers_updated_at :
  ¬ updated_at_mono (stored_tasks PullSample.world)
      (stored_tasks (exec (fetchTasks PullSample.env) PullSample.world)).
Proof.
  intros H.
  specialize (H PullSample.edited (Sample.local "X" "X-old" 20 None synced)).
  assert (50 ≤ 20) as Hle; [|lia].
  apply H; [by apply list_elem_of_here | by apply list_elem_of_here | reflexivity].
Qed.

(** ** Further properties of the hook *)

(** Splits on the reply of the gateway call in the goal. *)
Ltac destruct_reply :=
  match goal with
  | |- context [gw_insert ?E ?h ?r] =>
      destruct (gw_insert E h r) as [? | [?|] [?|]]
  | |- context [gw_update ?E ?h ?r ?u] =>
      destruct (gw_update E h r u) as [? | ? [?|]]
  | |- context [gw_soft_delete ?E ?h ?r] =>
      destruct (gw_soft_delete E h r) as [? | ? [?|]]
  | |- context [gw_select ?E ?h] =>
      destruct (gw_select E h) as [? | ? [?|]]
  end.

(** Replaces the confirmation pass of [createTask] by its result. *)
Ltac confirm_pass E :=
  match goal with
  | |- context [mapM (confirm_created E ?newId ?sid) ?l0 ?w0] =>
      let n := fresh "n" in
      let l' := fresh "l'" in
      let HF := fresh "HF" in
      destruct (mapM_confirm_created E newId sid l0 w0) as (n & l' & -> & HF)
  end.

Section MorePull.

Context (E : Env).

Lemma fetchTasks_eq (uid : string) (w : World) :
  user w = Some uid → fetchTasks E w = (tt, pull_result E uid w).
Proof.
  intros Hu. unfold fetchTasks, fetchTasks_fallback, pull_result. run.
  rewrite Hu. destruct_reply; simpl; by rewrite ?Hu.
Qed.

Lemma as_synced_none_pending (rows : list Task) :
  filterb counts_as_pending (as_synced rows) = [].
Proof.
  apply elem_of_nil_inv. intros t Ht.
  apply (list_elem_of_filter (λ x : LocalTask, counts_as_pending x = true)) in Ht
    as [Hp Ht].
  unfold as_synced in Ht. apply list_elem_of_fmap in Ht as (row & -> & _).
  discriminate Hp.
Qed.

(** X1. For a signed-in user, a pull whose fetch resolves without an error
    shows the rows of the reply (none when [data] is null), resets the
    pending counter to zero, stamps the same clock reading as last sync time
    in memory and in [localStorage], ends the loading state, and has made
    exactly one call, the select. *)
Theorem successful_pull_resets_hook (uid : string) (w : World)
    (data : option (list Task)) :
  user w = Some uid →
  gw_select E (net_log w) = Resolved data None →
  let w' := exec (fetchTasks E) w in
  tasks w' = default [] data
  ∧ stored_tasks w' = as_synced (default [] data)
  ∧ pendingSyncCount w' = 0
  ∧ lastSyncTime w' = Some (clock E (clock_reads w))
  ∧ stored_last_sync w' = Some (clock E (clock_reads w))
  ∧ loading w' = false
  ∧ net_log w' = net_log w ++ [ReqSelect].
Proof.
  intros Hu Hr. unfold exec. rewrite (fetchTasks_eq uid w Hu).
  unfold pull_result. rewrite Hr. simpl.
  by rewrite as_synced_none_pending.
Qed.

(** X2. Without a signed-in user the hook is inert: a pull, a push and the
    three mutations return at once and leave the whole state as it is (the
    loading flag included), with no call made. *)
Theorem signed_out_is_inert (w : World) (o : UserOp) :
  user w = None →
  fetchTasks E w = (tt, w) ∧ syncTasks E w = (tt, w) ∧ run_op E o w = (tt, w).
Proof.
  intros Hu. split; [|split].
  - unfold fetchTasks. run. by rewrite Hu.
  - unfold syncTasks. run. by rewrite Hu.
  - by apply run_op_signed_out.
Qed.

End MorePull.

Section MoreMutations.

Context (E : Env).

(** The visible list a mutation leaves, in every network state. *)
Lemma run_op_tasks (uid : string) (w : World) (o : UserOp) :
  user w = Some uid →
  tasks (exec (run_op E o) w) = visible_after E uid w o.
Proof.
  intros Hu. destruct o as [t d | i u | i];
    unfold run_op, createTask, createTask_failed, updateTask, deleteTask,
      visible_after; run; rewrite Hu.
  - fold (new_task E w t d).
    destruct (isOnline w); [|done].
    destruct_reply; try done. by confirm_pass E.
  - destruct (findIndex _ (stored_tasks w)) as [[k old]|]; [|done]. simpl.
    destruct (isOnline w); [|done]. by destruct_reply.
  - destruct (findIndex _ (stored_tasks w)) as [[k old]|]; [|done]. simpl.
    destruct (isOnline w); [|done]. by destruct_reply.
Qed.

(** X3. For a signed-in user the visible list a mutation leaves does not
    depend on the network: a created task is put first, an update rewrites
    the visible tasks that carry the identifier (as id or as server id), a
    deletion removes them; a mutation that finds no target in the store
    leaves the list alone. *)
Theorem visible_list_ignores_network (uid : string) (w : World) (o : UserOp) :
  user w = Some uid →
  tasks (exec (run_op E o) w) = visible_after E uid w o.
Proof.
  intros Hu. destruct o as [t d | i u | i];
    unfold run_op, createTask, createTask_failed, updateTask, deleteTask,
      visible_after; run; rewrite Hu.
  - fold (new_task E w t d).
    destruct (isOnline w); [|done].
    destruct_reply; try done. by confirm_pass E.
  - destruct (findIndex _ (stored_tasks w)) as [[k old]|]; [|done]. simpl.
    destruct (isOnline w); [|done]. by destruct_reply.
  - destruct (findIndex _ (stored_tasks w)) as [[k old]|]; [|done]. simpl.
    destruct (isOnline w); [|done]. by destruct_reply.
Qed.

(** The calls a mutation logs. *)
Lemma run_op_log (uid : string) (w : World) (o : UserOp) :
  user w = Some uid →
  net_log (exec (run_op E o) w)
  = net_log w ++ (if isOnline w then option_list (mutation_request uid w o)
                  else []).
Proof.
  intros Hu. destruct o as [t d | i u | i];
    unfold run_op, createTask, createTask_failed, updateTask, deleteTask,
      mutation_request; run; rewrite Hu.
  - destruct (isOnline w); [|by rewrite app_nil_r].
    destruct_reply; try done. by confirm_pass E.
  - destruct (findIndex _ (stored_tasks w)) as [[k old]|]; simpl;
      [|by destruct (isOnline w); rewrite app_nil_r].
    destruct (isOnline w); [|by rewrite app_nil_r]. by destruct_reply.
  - destruct (findIndex _ (stored_tasks w)) as [[k old]|]; simpl;
      [|by destruct (isOnline w); rewrite app_nil_r].
    destruct (isOnline w); [|by rewrite app_nil_r]. by destruct_reply.
Qed.

(** X4. For a signed-in user a mutation makes no call while the hook is
    offline and exactly one while it is online, whatever the reply: the
    insert of the new task, or the update or soft delete addressed to the
    target's server id when it has a non-empty one and to the given
    identifier otherwise. A mutation that finds no target makes none. *)
Theorem mutation_makes_one_call (uid : string) (w : World) (o : UserOp) :
  user w = Some uid →
  net_log (exec (run_op E o) w)
  = net_log w ++ (if isOnline w then option_list (mutation_request uid w o)
                  else []).
Proof.
  intros Hu. destruct o as [t d | i u | i];
    unfold run_op, createTask, createTask_failed, updateTask, deleteTask,
      mutation_request; run; rewrite Hu.
  - destruct (isOnline w); [|by rewrite app_nil_r].
    destruct_reply; try done. by confirm_pass E.
  - destruct (findIndex _ (stored_tasks w)) as [[k old]|]; simpl;
      [|by destruct (isOnline w); rewrite app_nil_r].
    destruct (isOnline w); [|by rewrite app_nil_r]. by destruct_reply.
  - destruct (findIndex _ (stored_tasks w)) as [[k old]|]; simpl;
      [|by destruct (isOnline w); rewrite app_nil_r].
    destruct (isOnline w); [|by rewrite app_nil_r]. by destruct_reply.
Qed.

(** A mutation leaves the session, the connectivity flag, the loading flag
    and both last-sync stamps alone. *)
Lemma run_op_frame (w : World) (o : UserOp) :
  let w' := exec (run_op E o) w in
  user w' = user w ∧ isOnline w' = isOnline w ∧ loading w' = loading w
  ∧ lastSyncTime w' = lastSyncTime w
  ∧ stored_last_sync w' = stored_last_sync w.
Proof.
  simpl. destruct (user w) as [uid|] eqn:Hu;
    [|unfold exec; by rewrite run_op_signed_out].
  destruct o as [t d | i u | i];
    unfold run_op, createTask, createTask_failed, updateTask, deleteTask;
    run; rewrite Hu.
  - destruct (isOnline w) eqn:Hon; [|by rewrite ?Hu, ?Hon].
    destruct_reply; try by rewrite ?Hu, ?Hon.
    confirm_pass E. simpl. by rewrite ?Hu, ?Hon.
  - destruct (findIndex _ (stored_tasks w)) as [[k old]|]; simpl;
      [|by rewrite ?Hu].
    destruct (isOnline w) eqn:Hon; [|by rewrite ?Hu, ?Hon].
    destruct_reply; by rewrite ?Hu, ?Hon.
  - destruct (findIndex _ (stored_tasks w)) as [[k old]|]; simpl;
      [|by rewrite ?Hu].
    destruct (isOnline w) eqn:Hon; [|by rewrite ?Hu, ?Hon].
    destruct_reply; by rewrite ?Hu, ?Hon.
Qed.

Lemma matches_after_update (i : string) (ts : timestamp) (u : Updates)
    (f : TaskFields) :
  matches i (with_updated_at ts (apply_updates u f)) = matches i f.
Proof. reflexivity. Qed.

(** X5. Ticking the checkbox of a shown task (signed in, the task's id found
    in the store) sets the [completed] flag of the stored target to the
    negation of the flag shown, leaving its title and description, and every
    visible task carrying that identifier then has the negated flag: it sits
    in the "completed" tab exactly when the task ticked was active. *)
Theorem toggle_moves_task_to_other_tab (uid : string) (w : World) (task : Task)
    (k : nat) (old : LocalTask) :
  user w = Some uid →
  findIndex (λ t : LocalTask, matches (id task) t) (stored_tasks w) = Some (k, old) →
  let w' := exec (handleToggleComplete E task) w in
  (∃ t' : LocalTask,
     stored_tasks w' !! k = Some t'
     ∧ completed t' = negb (completed task)
     ∧ title t' = title old ∧ description t' = description old)
  ∧ ∀ t' : Task, t' ∈ tasks w' → matches (id task) t' = true →
      completed t' = negb (completed task)
      ∧ (t' ∈ completedTasks (tasks w') ↔ completed task = false).
Proof.
  intros Hu Hf. simpl. unfold handleToggleComplete.
  set (u := mkUpdates None None (Some (negb (completed task)))).
  split.
  - assert (Hlt : k < length (stored_tasks w)).
    { apply findIndex_Some in Hf as (Hk & _). by apply lookup_lt_Some in Hk. }
    destruct (updateTask_store E uid (id task) u w k old Hu Hf) as [-> | [ts ->]];
      eexists; (split; [by apply list_lookup_insert_eq|]); done.
  - pose proof (run_op_tasks uid w (OpUpdate (id task) u) Hu) as Hv.
    simpl in Hv. rewrite Hf in Hv. rewrite Hv.
    intros t' Ht' Hm.
    assert (Hc : completed t' = negb (completed task)).
    { apply list_elem_of_fmap in Ht' as (t0 & -> & _).
      destruct (matches (id task) t0) eqn:Hm0; [done|].
      rewrite Hm0 in Hm. discriminate Hm. }
    split; [done|].
    unfold completedTasks, filterb.
    rewrite (list_elem_of_filter (λ x : Task, completed x = true)).
    rewrite Hc.
    destruct (completed task); simpl; (split; [intros [Hx _] | intros Hx]);
      done.
Qed.

(** X6. The two tabs of the page split the visible list: every task is in
    exactly one of them, each tab keeps the order of the list, and the two
    counts add up to its length. *)
Theorem tabs_partition_tasks (ts : list Task) :
  activeTasks ts ++ completedTasks ts ≡ₚ ts
  ∧ length (activeTasks ts) + length (completedTasks ts) = length ts
  ∧ activeTasks ts `sublist_of` ts
  ∧ completedTasks ts `sublist_of` ts
  ∧ ∀ t : Task, t ∈ ts → (t ∈ activeTasks ts ↔ t ∉ completedTasks ts).
Proof.
  assert (Hperm : activeTasks ts ++ completedTasks ts ≡ₚ ts).
  { unfold activeTasks, completedTasks, filterb.
    induction ts as [|t ts IH]; [done|].
    rewrite !filter_cons. destruct (completed t) eqn:Hc; simpl.
    - repeat case_decide; try done.
      rewrite <- Permutation_middle. by constructor.
    - repeat case_decide; try done. simpl. by constructor. }
  split; [done|]. split.
  { rewrite <- length_app. by rewrite Hperm. }
  split; [apply sublist_filter|]. split; [apply sublist_filter|].
  intros t Ht. unfold activeTasks, completedTasks, filterb.
  rewrite (list_elem_of_filter (λ x : Task, negb (completed x) = true)),
          (list_elem_of_filter (λ x : Task, completed x = true)).
  destruct (completed t); simpl; split.
  - by intros [Hx _].
  - intros Hx. exfalso. by apply Hx.
  - by intros _ [Hx _].
  - done.
Qed.


(** X21. Deleting a shown task (signed in, the task's id found in the
    store) takes every task with that id off the visible list, whether the
    hook is online or not and whatever the gateway replies; the tasks that
    carry the identifier neither as id nor as server id stay, in order. *)
Theorem delete_hides_task (uid : string) (w : World) (task : Task)
    (k : nat) (old : LocalTask) :
  user w = Some uid →
  findIndex (λ t : LocalTask, matches (id task) t) (stored_tasks w) = Some (k, old) →
  let w' := exec (handleDelete E task) w in
  tasks w' = filterb (λ t : Task, negb (matches (id task) t)) (tasks w)
  ∧ ∀ t' : Task, t' ∈ tasks w' → id t' ≠ id task.
Proof.
  intros Hu Hf. simpl. unfold handleDelete.
  pose proof (run_op_tasks uid w (OpDelete (id task)) Hu) as Hv.
  simpl in Hv. rewrite Hf in Hv. split; [done|].
  rewrite Hv. intros t' Ht' Hid.
  apply (list_elem_of_filter (λ y : Task, negb (matches (id task) y) = true))
    in Ht' as [Hm _].
  assert (matches (id task) t' = true) by (apply matches_spec; by left).
  destruct (matches (id task) t'); done.
Qed.

Lemma elem_of_delete_ne {A} (l : list A) (j k : nat) (x : A) :
  l !! j = Some x → j ≠ k → x ∈ delete k l.
Proof.
  intros Hj Hne. apply list_elem_of_lookup.
  destruct (decide (j < k)) as [Hlt | Hge].
  - exists j. by rewrite list_lookup_delete_lt.
  - exists (j - 1). rewrite list_lookup_delete_ge by lia.
    replace (S (j - 1)) with j by lia. done.
Qed.

(** X7. An update or a deletion never touches a stored record that carries
    the identifier neither as id nor as server id: such a record is still in
    the store, as it was, after the call, in every network state. *)
Theorem mutation_spares_other_records (w : World) (i : string) (u : Updates)
    (t : LocalTask) :
  t ∈ stored_tasks w → matches i t = false →
  t ∈ stored_tasks (exec (updateTask E i u) w)
  ∧ t ∈ stored_tasks (exec (deleteTask E i) w).
Proof.
  intros (j & Hj)%list_elem_of_lookup Hm.
  assert (Hin : t ∈ stored_tasks w) by (apply list_elem_of_lookup; eauto).
  destruct (user w) as [uid|] eqn:Hu.
  2:{ pose proof (run_op_signed_out E (OpUpdate i u) w Hu) as H1.
      pose proof (run_op_signed_out E (OpDelete i) w Hu) as H2.
      simpl in H1, H2. unfold exec. by rewrite H1, H2. }
  destruct (findIndex (λ t : LocalTask, matches i t) (stored_tasks w))
    as [[k old]|] eqn:Hf.
  2:{ assert (updateTask E i u w = (tt, w)) as H1
        by (unfold updateTask; run; by rewrite Hu, Hf).
      assert (deleteTask E i w = (tt, w)) as H2
        by (unfold deleteTask; run; by rewrite Hu, Hf).
      unfold exec. by rewrite H1, H2. }
  assert (Hne : j ≠ k).
  { intros ->. apply findIndex_Some in Hf as (Hk & Hmk & _).
    rewrite Hj in Hk. injection Hk as ->. congruence. }
  assert (Hins : ∀ x : LocalTask, t ∈ <[k := x]> (stored_tasks w)).
  { intros x. apply list_elem_of_lookup. exists j.
    by rewrite list_lookup_insert_ne. }
  split.
  - destruct (updateTask_store E uid i u w k old Hu Hf) as [-> | [ts ->]];
      apply Hins.
  - destruct (deleteTask_store E uid i w k old Hu Hf) as [-> | ->];
      [apply Hins | by apply (elem_of_delete_ne _ j)].
Qed.

Lemma mapM_confirm_fresh (newId sid : string) (l : list LocalTask) (w : World) :
  (∀ t : LocalTask, t ∈ l → id t ≠ newId) →
  mapM (confirm_created E newId sid) l w = (l, w).
Proof.
  induction l as [|t l IH]; intros Hfresh; [done|].
  simpl. unfold bind. unfold confirm_created at 1.
  rewrite bool_decide_eq_false_2 by (apply Hfresh, list_elem_of_here).
  run. rewrite IH; [done|].
  intros t' Ht'. by apply Hfresh, list_elem_of_further.
Qed.

Lemma mapM_app {A B} (f : A → M B) (l1 l2 : list A) (w : World) :
  mapM f (l1 ++ l2) w =
    (let (ys1, w1) := mapM f l1 w in
     let (ys2, w2) := mapM f l2 w1 in (ys1 ++ ys2, w2)).
Proof.
  revert w. induction l1 as [|x l1 IH]; intros w; simpl.
  - unfold ret. by destruct (mapM f l2 w).
  - unfold bind. destruct (f x w) as [y w1]. rewrite IH.
    destruct (mapM f l1 w1) as [ys1 w2]. unfold ret.
    by destruct (mapM f l2 w2).
Qed.

(** X8. Creating a task while online, when the insert returns a row and no
    error and the fresh UUID is not yet an id of the store: the store gains
    one record at its end, the new task marked [synced] with the id of the
    returned row as [server_id] and a sync stamp; the records before it are
    untouched and the pending counter does not count the new task. *)
Theorem online_create_is_confirmed (uid : string) (w : World) (title_ : string)
    (description_ : option string) (data : Task) :
  user w = Some uid → isOnline w = true →
  gw_insert E (net_log w) (mkInsert title_ description_ None uid)
    = Resolved (Some data) None →
  (∀ t : LocalTask, t ∈ stored_tasks w → id t ≠ randomUUID E (uuid_draws w)) →
  let w' := exec (createTask E title_ description_) w in
  stored_tasks w'
  = stored_tasks w ++
      [mkLocal (with_last_synced_at (Some (clock E (S (S (clock_reads w)))))
                  (with_server_id (Some (id data))
                     (new_task E w title_ description_)))
               synced]
  ∧ pendingSyncCount w' = length (filterb counts_as_pending (stored_tasks w))
  ∧ toasts w' = toasts w ++ [ToastSuccess "Task created"].
Proof.
  intros Hu Hon Hr Hfresh. simpl.
  unfold createTask. run. rewrite Hu, Hon. simpl. rewrite Hr.
  fold (new_task E w title_ description_).
  rewrite mapM_app, (mapM_confirm_fresh _ _ _ _ Hfresh).
  simpl. unfold bind, confirm_created. simpl.
  rewrite bool_decide_eq_true_2 by done. run.
  split; [done|]. split; [|done].
  unfold filterb. rewrite filter_app. simpl.
  rewrite filter_cons. simpl. by rewrite app_nil_r.
Qed.

End MoreMutations.

(** ** The target of an update or a deletion *)

Section Target.

Context (E : Env).

(** C10. [updateTask] and [deleteTask] take as target the first record of
    the store whose [id] or whose [server_id] is the given identifier. When
    no record matches on either field, both calls return at once and the
    whole state of the hook (the stored list, the visible task list, the
    counter, the log of network calls) is what it was. When a record
    matches, on either field, and none before it does, that record is the
    one written, for a signed-in user: the update puts the updated record at
    its index (marked [synced] and stamped after a confirmed call), the
    deletion puts the tombstone there or, after a confirmed call, removes
    the record at that index; and the deletion leaves no visible task that
    carries the identifier as id or as server id. *)
Theorem target_by_id_or_server_id_else_noop (i : string) (updates : Updates)
    (w : World) :
  ((∀ t : LocalTask, t ∈ stored_tasks w → id t ≠ i ∧ server_id t ≠ Some i) →
   updateTask E i updates w = (tt, w) ∧ deleteTask E i w = (tt, w))
  ∧ ∀ (uid : string) (k : nat) (old : LocalTask),
      user w = Some uid →
      stored_tasks w !! k = Some old →
      id old = i ∨ server_id old = Some i →
      (∀ (j : nat) (y : LocalTask),
         stored_tasks w !! j = Some y → j < k →
         id y ≠ i ∧ server_id y ≠ Some i) →
      (stored_tasks (exec (updateTask E i updates) w)
         = <[k := updated_task E w updates old]> (stored_tasks w)
       ∨ ∃ ts : timestamp,
           stored_tasks (exec (updateTask E i updates) w)
             = <[k := mkLocal (with_last_synced_at (Some ts)
                                 (updated_task E w updates old)) synced]>
                 (stored_tasks w))
      ∧ (stored_tasks (exec (deleteTask E i) w)
           = <[k := tombstone_of E w old]> (stored_tasks w)
         ∨ stored_tasks (exec (deleteTask E i) w) = delete k (stored_tasks w))
      ∧ ∀ t : Task, t ∈ tasks (exec (deleteTask E i) w) →
          id t ≠ i ∧ server_id t ≠ Some i.
Proof.
  split.
  - intros Hno.
    assert (Hfind : findIndex (λ t : LocalTask, matches i t) (stored_tasks w)
                    = None).
    { apply findIndex_None. intros t Ht. destruct (Hno t Ht) as [H1 H2].
      destruct (matches i t) eqn:Hm; [|done].
      apply matches_spec in Hm. tauto. }
    unfold updateTask, deleteTask. run.
    destruct (user w); [|done]. by rewrite Hfind.
  - intros uid k old Hu Hk Hm Hmin.
    assert (Hf : findIndex (λ t : LocalTask, matches i t) (stored_tasks w)
                 = Some (k, old)) by (by apply target_is_first_match).
    split; [by apply (updateTask_store E uid)|].
    split; [by apply (deleteTask_store E uid)|].
    pose proof (run_op_tasks E uid w (OpDelete i) Hu) as Hv.
    simpl in Hv. rewrite Hf in Hv. rewrite Hv. intros t Ht.
    apply (list_elem_of_filter (λ y : Task, negb (matches i y) = true)) in Ht
      as [Hn _].
    destruct (matches i t) eqn:Hmt; [done|].
    split; intros Hid;
      (assert (matches i t = true) by (apply matches_spec; tauto)); congruence.
Qed.

End Target.

Section MorePush.

Context (E : Env).

Lemma same_session_refl (w : World) : same_session w w.
Proof. by repeat split. Qed.

Lemma same_session_trans (w1 w2 w3 : World) :
  same_session w1 w2 → same_session w2 w3 → same_session w1 w3.
Proof. unfold same_session. intros H1 H2. intuition congruence. Qed.

(** One iteration only logs its call, reads the clock and writes to the
    console. *)
Lemma sync_one_frame (uid : string) (task : LocalTask) (v : SyncVars) (w : World) :
  same_session w (snd (sync_one E uid task v w))
  ∧ net_log (snd (sync_one E uid task v w))
    = net_log w ++ option_list (request_of uid task).
Proof.
  unfold sync_one, push_one, awaited, request_of, same_session.
  destruct (is_deleted task), (truthy (server_id task)) as [sid|]; run;
    try destruct_reply; simpl;
    repeat match goal with
    | |- context [findIndex ?p ?l] => destruct (findIndex p l) as [[? ?]|]
    end; simpl; rewrite ?app_nil_r; done.
Qed.

Lemma sync_fold_frame (uid : string) (ps : list LocalTask) (v : SyncVars)
    (w : World) :
  same_session w (snd (foldM (sync_one E uid) ps v w))
  ∧ net_log (snd (foldM (sync_one E uid) ps v w))
    = net_log w ++ omap (request_of uid) ps.
Proof.
  revert v w. induction ps as [|t ps IH]; intros v w; simpl.
  - split; [apply same_session_refl | by rewrite app_nil_r].
  - unfold bind.
    destruct (sync_one_frame uid t v w) as [Hs Hn].
    destruct (sync_one E uid t v w) as [v1 w1]. simpl in Hs, Hn.
    destruct (IH v1 w1) as [Hs' Hn']. split.
    + by apply (same_session_trans _ w1).
    + rewrite Hn', Hn, <- app_assoc. f_equal.
      by destruct (request_of uid t).
Qed.

Lemma push_result_content (uid : string) (t : LocalTask) (h : list request)
    (ts : timestamp) :
  content (push_result E uid t h ts) = content t.
Proof.
  unfold push_result.
  destruct (rejects E uid t h); [done|].
  by destruct (assigned_server_id E uid t h).
Qed.

(** The [try] block of one iteration, exactly. *)
Lemma push_one_exact (uid : string) (task : LocalTask) (l : list LocalTask)
    (k : nat) (w : World) :
  NoDup (ids l) → l !! k = Some task →
  match fst (push_one E uid task l w) with
  | inl _ => rejects E uid task (net_log w) = true
  | inr l2 =>
      rejects E uid task (net_log w) = false
      ∧ l2 = <[k := mkLocal
                       (match assigned_server_id E uid task (net_log w) with
                        | Some sid => with_server_id (Some sid) task
                        | None => local_fields task
                        end) (sync_status task)]> l
  end.
Proof.
  intros Hnd Hk.
  assert (Hid : l = <[k := mkLocal (local_fields task) (sync_status task)]> l).
  { symmetry. apply list_insert_id. rewrite Hk. by destruct task. }
  unfold push_one, rejects, assigned_server_id, awaited.
  destruct (is_deleted task), (truthy (server_id task)) as [sid|]; run;
    try done; try (destruct_reply; by simpl).
  destruct_reply; simpl; try done.
  - split; [done|]. by apply write_by_id_NoDup.
  - split; [done|]. by apply write_by_id_NoDup.
Qed.

(** One iteration, exactly. *)
Lemma sync_one_exact (uid : string) (task : LocalTask) (l : list LocalTask)
    (s e k : nat) (w : World) :
  NoDup (ids l) → l !! k = Some task →
  ∃ (ts : timestamp) (s' e' : nat),
    fst (sync_one E uid task (mkVars l s e) w)
    = mkVars (<[k := push_result E uid task (net_log w) ts]> l) s' e'.
Proof.
  intros Hnd Hk.
  pose proof (push_one_exact uid task l k w Hnd Hk) as Hp.
  unfold sync_one, bind, push_result. simpl.
  destruct (push_one E uid task l w) as [[msg | l2] w1]. simpl in Hp.
  - rewrite Hp. run. rewrite (write_by_id_NoDup _ l k task Hnd Hk).
    by exists 0, s, (S e).
  - destruct Hp as (Hr & ->). rewrite Hr.
    set (t2 := mkLocal _ (sync_status task)).
    assert (Hid : id t2 = id task).
    { unfold t2. by destruct (assigned_server_id E uid task (net_log w)). }
    assert (Hk2 : <[k := t2]> l !! k = Some t2).
    { apply list_lookup_insert_eq. by apply lookup_lt_Some in Hk. }
    assert (Hnd2 : NoDup (ids (<[k := t2]> l))).
    { by rewrite (ids_insert l k task t2 Hk Hid). }
    rewrite <- Hid. rewrite (findIndex_id_NoDup _ k t2 Hnd2 Hk2).
    run. rewrite (alter_lookup _ _ k t2 Hk2), list_insert_insert_eq.
    exists (clock E (clock_reads w1)), (S s), e. done.
Qed.

(** The loop over a list [ps] of records of the array [l], exactly. *)
Lemma sync_fold_exact (uid : string) (ps : list LocalTask) :
  ∀ (l : list LocalTask) (s e : nat) (w : World),
  NoDup (ids l) → NoDup (ids ps) → (∀ t : LocalTask, t ∈ ps → t ∈ l) →
  ∀ (p k : nat) (t : LocalTask),
    ps !! p = Some t → l !! k = Some t →
    ∃ ts : timestamp,
      localTasks (fst (foldM (sync_one E uid) ps (mkVars l s e) w)) !! k
      = Some (push_result E uid t
                (net_log w ++ omap (request_of uid) (take p ps)) ts).
Proof.
  induction ps as [|t0 ps IH]; intros l s e w Hnd Hps Hin p k t Hp Hk;
    [by destruct p|].
  assert (t0 ∈ l) as (k0 & Hk0)%list_elem_of_lookup
    by (apply Hin; apply list_elem_of_here).
  apply NoDup_cons in Hps as [Hfresh Hps].
  destruct (sync_one_exact uid t0 l s e k0 w Hnd Hk0) as (ts0 & s' & e' & Hstep).
  destruct (sync_one_frame uid t0 (mkVars l s e) w) as [_ Hn1].
  simpl. unfold bind.
  destruct (sync_one E uid t0 (mkVars l s e) w) as [v1 w1].
  simpl in Hstep, Hn1. subst v1.
  set (t0' := push_result E uid t0 (net_log w) ts0) in *.
  set (l1 := <[k0 := t0']> l) in *.
  assert (Hid0 : id t0' = id t0)
    by (apply content_id, push_result_content).
  assert (Hother : ∀ (j : nat) (x : LocalTask),
            l !! j = Some x → id x ≠ id t0 → l1 !! j = Some x).
  { intros j x Hj Hne. unfold l1. rewrite list_lookup_insert_ne; [done|].
    intros ->. rewrite Hk0 in Hj. congruence. }
  assert (Hnd1 : NoDup (ids l1))
    by (unfold l1; by rewrite (ids_insert l k0 t0 t0' Hk0 Hid0)).
  assert (Hinps : ∀ x : LocalTask, x ∈ ps → id x ≠ id t0).
  { intros x Hx Heq. apply Hfresh. unfold ids. rewrite <- Heq.
    by apply (list_elem_of_fmap_2 (λ t : LocalTask, id t)). }
  assert (Hin1 : ∀ x : LocalTask, x ∈ ps → x ∈ l1).
  { intros x Hx.
    assert (x ∈ l) as (j & Hj)%list_elem_of_lookup
      by (apply Hin; by apply list_elem_of_further).
    apply list_elem_of_lookup. exists j. apply Hother; [done|]. by apply Hinps. }
  destruct p as [|p]; simpl in Hp.
  - injection Hp as ->.
    assert (k = k0) as ->.
    { apply (NoDup_lookup (ids l) k k0 (id t) Hnd); unfold ids;
        rewrite list_lookup_fmap; [by rewrite Hk | by rewrite Hk0]. }
    destruct (sync_fold_spec E uid ps l1 s' e' w1 Hnd1 Hps Hin1)
      as (v' & w' & -> & _ & _ & _ & _ & Hkeep & _).
    exists ts0. simpl. rewrite app_nil_r. apply Hkeep.
    + unfold l1. apply list_lookup_insert_eq. by apply lookup_lt_Some in Hk0.
    + intros Hx. apply Hfresh. rewrite <- Hid0. exact Hx.
  - assert (Hne : id t ≠ id t0)
      by (apply Hinps; by apply list_elem_of_lookup_2 in Hp).
    destruct (IH l1 s' e' w1 Hnd1 Hps Hin1 p k t Hp (Hother k t Hk Hne))
      as (ts & Hres).
    exists ts. by rewrite Hn1, omap_take_cons in Hres.
Qed.

(** The record the push loop leaves in place of a pending record. *)
Lemma sync_loop_exact (uid : string) (stored : list LocalTask) (w : World)
    (p k : nat) (t : LocalTask) :
  NoDup (ids stored) →
  filterb is_pending stored !! p = Some t →
  stored !! k = Some t →
  ∃ ts : timestamp,
    localTasks (fst (sync_loop E uid stored w)) !! k
    = Some (push_result E uid t
              (net_log w ++ omap (request_of uid)
                                 (take p (filterb is_pending stored))) ts).
Proof.
  intros Hnd Hp Hk. unfold sync_loop.
  apply sync_fold_exact; try done.
  - by apply pending_sublist.
  - intros x Hx. by apply elem_of_pending in Hx as [_ Hx].
Qed.

(** X9. Over a store with one record per id, the record the push loop
    leaves in place of a pending record is determined by the record itself
    and by the reply to its own call: marked [error] and otherwise unchanged
    when the call rejects; else marked [synced] and stamped, with the id of
    the returned row written as [server_id] when the record was a live one
    that had none and the insert returned a row, and with [server_id] as it
    was in every other case. *)
Theorem push_loop_result (uid : string) (stored : list LocalTask) (w : World)
    (p k : nat) (t : LocalTask) :
  NoDup (ids stored) →
  filterb is_pending stored !! p = Some t →
  stored !! k = Some t →
  ∃ ts : timestamp,
    localTasks (fst (sync_loop E uid stored w)) !! k
    = Some (push_result E uid t
              (net_log w ++ omap (request_of uid)
                                 (take p (filterb is_pending stored))) ts).
Proof.
  intros Hnd Hp Hk. unfold sync_loop.
  apply sync_fold_exact; try done.
  - by apply pending_sublist.
  - intros x Hx. by apply elem_of_pending in Hx as [_ Hx].
Qed.

(** X10. Round trip of an offline creation. Over a store with one record
    per id, a pending record that is live and has no server id, and whose
    insert returns a row, comes out of the push loop marked [synced], with
    the id of that row as [server_id] and its content unchanged. *)
Theorem pushed_creation_gets_server_id (uid : string) (stored : list LocalTask)
    (w : World) (p k : nat) (t : LocalTask) (data : Task) (err : option string) :
  NoDup (ids stored) →
  filterb is_pending stored !! p = Some t →
  stored !! k = Some t →
  is_deleted t = false → truthy (server_id t) = None →
  gw_insert E (net_log w ++ omap (request_of uid)
                                 (take p (filterb is_pending stored)))
            (mkInsert (title t) (description t) (Some (completed t)) uid)
    = Resolved (Some data) err →
  ∃ t' : LocalTask,
    localTasks (fst (sync_loop E uid stored w)) !! k = Some t'
    ∧ sync_status t' = synced
    ∧ server_id t' = Some (id data)
    ∧ is_Some (last_synced_at t')
    ∧ content t' = content t.
Proof.
  intros Hnd Hp Hk Hlive Hnew Hr.
  destruct (sync_loop_exact uid stored w p k t Hnd Hp Hk) as (ts & Hres).
  eexists. split; [exact Hres|].
  split; [|split; [|split; [|apply push_result_content]]];
    unfold push_result, rejects, assigned_server_id;
    rewrite Hlive, Hnew, Hr; simpl; eauto.
Qed.

(** The state a push pass leaves when it has something to push. *)
Lemma syncTasks_eq (uid : string) (w : World) :
  user w = Some uid → isOnline w = true →
  filterb is_pending (stored_tasks w) ≠ [] →
  ∃ (v : SyncVars) (w2 : World) (reports : list toast),
    sync_loop E uid (stored_tasks w) w = (v, w2)
    ∧ exec (syncTasks E) w
      = exec (foldM (λ t _, showToast t) reports tt)
             (pull_result E uid (exec (saveLocalTasks (localTasks v)) w2)).
Proof.
  intros Hu Hon Hne.
  assert (Hu2 : user (snd (sync_loop E uid (stored_tasks w) w)) = Some uid).
  { destruct (sync_fold_frame uid (filterb is_pending (stored_tasks w))
                (mkVars (stored_tasks w) 0 0) w) as [(Hx & _) _].
    unfold sync_loop. by rewrite Hx. }
  unfold syncTasks. run. rewrite Hu, Hon.
  destruct (filterb is_pending (stored_tasks w)) as [|t0 ps] eqn:Hps; [done|].
  destruct (sync_loop E uid (stored_tasks w) w) as [v w2]. simpl in Hu2.
  exists v, w2.
  match goal with
  | |- context [fetchTasks E ?w3] => rewrite (fetchTasks_eq E uid w3 Hu2)
  end.
  destruct (bool_decide (0 < syncedCount v)), (bool_decide (0 < errorCount v)).
  - eexists [_; _]. split; [done|]. reflexivity.
  - eexists [_]. split; [done|]. reflexivity.
  - eexists [_]. split; [done|]. reflexivity.
  - exists []. split; [done|]. reflexivity.
Qed.

Lemma toasts_frame (reports : list toast) (w : World) :
  let w' := exec (foldM (λ t _, showToast t) reports tt) w in
  stored_tasks w' = stored_tasks w ∧ tasks w' = tasks w
  ∧ pendingSyncCount w' = pendingSyncCount w ∧ net_log w' = net_log w
  ∧ lastSyncTime w' = lastSyncTime w ∧ stored_last_sync w' = stored_last_sync w
  ∧ isOnline w' = isOnline w ∧ user w' = user w.
Proof.
  revert w. induction reports as [|t reports IH]; intros w; [done|].
  simpl. unfold exec. simpl. unfold bind, showToast.
  apply (IH (mkWorld _ _ _ _ _ _ _ _ _ _ _ _ _)).
Qed.

Lemma pull_result_log (uid : string) (w : World) :
  net_log (pull_result E uid w) = net_log w ++ [ReqSelect].
Proof. unfold pull_result. by destruct_reply. Qed.

Lemma sync_loop_log (uid : string) (w : World) :
  net_log (snd (sync_loop E uid (stored_tasks w) w))
  = net_log w ++ omap (request_of uid) (filterb is_pending (stored_tasks w)).
Proof. unfold sync_loop. apply sync_fold_frame. Qed.

(** The calls a push pass logs. *)
Lemma syncTasks_log (uid : string) (w : World) :
  user w = Some uid → isOnline w = true →
  net_log (exec (syncTasks E) w)
  = net_log w ++
      match filterb is_pending (stored_tasks w) with
      | [] => []
      | ps => omap (request_of uid) ps ++ [ReqSelect]
      end.
Proof.
  intros Hu Hon.
  destruct (filterb is_pending (stored_tasks w)) as [|t0 ps] eqn:Hps.
  - unfold syncTasks. run. rewrite Hu, Hon, Hps. simpl. by rewrite app_nil_r.
  - destruct (syncTasks_eq uid w Hu Hon) as (v & w2 & reports & Hloop & ->).
    { by rewrite Hps. }
    destruct (toasts_frame reports
                (pull_result E uid (exec (saveLocalTasks (localTasks v)) w2)))
      as (_ & _ & _ & -> & _).
    rewrite pull_result_log. pose proof (sync_loop_log uid w) as Hlog.
    rewrite Hloop, Hps in Hlog. simpl in Hlog.
    unfold exec, saveLocalTasks. simpl. rewrite Hlog.
    by rewrite <- app_assoc.
Qed.

(** X11. A push pass (signed in, online) with nothing pending makes no call
    at all; otherwise it makes the calls of the pending records, in store
    order, and then exactly one select, the pull that ends the pass, whatever
    the replies. *)
Theorem push_pass_calls_then_pulls (uid : string) (w : World) :
  user w = Some uid → isOnline w = true →
  net_log (exec (syncTasks E) w)
  = net_log w ++
      match filterb is_pending (stored_tasks w) with
      | [] => []
      | ps => omap (request_of uid) ps ++ [ReqSelect]
      end.
Proof.
  intros Hu Hon.
  destruct (filterb is_pending (stored_tasks w)) as [|t0 ps] eqn:Hps.
  - unfold syncTasks. run. rewrite Hu, Hon, Hps. simpl. by rewrite app_nil_r.
  - destruct (syncTasks_eq uid w Hu Hon) as (v & w2 & reports & Hloop & ->).
    { by rewrite Hps. }
    destruct (toasts_frame reports
                (pull_result E uid (exec (saveLocalTasks (localTasks v)) w2)))
      as (_ & _ & _ & -> & _).
    rewrite pull_result_log. pose proof (sync_loop_log uid w) as Hlog.
    rewrite Hloop, Hps in Hlog. simpl in Hlog.
    unfold exec, saveLocalTasks. simpl. rewrite Hlog.
    by rewrite <- app_assoc.
Qed.

(** X12. What a push pass that had something to push leaves. When the
    select that ends it resolves without an error, the store and the visible
    list are the rows of that reply and the pending counter is zero: nothing
    the loop wrote (error marks, sync stamps, server ids) survives. When the
    select fails, the store is the list the loop wrote, the visible list its
    records that are not deleted, and the counter its live pending records. *)
Theorem push_pass_outcome (uid : string) (w : World) :
  user w = Some uid → isOnline w = true →
  filterb is_pending (stored_tasks w) ≠ [] →
  let w' := exec (syncTasks E) w in
  let written := localTasks (fst (sync_loop E uid (stored_tasks w) w)) in
  match gw_select E (net_log w ++ omap (request_of uid)
                                       (filterb is_pending (stored_tasks w))) with
  | Resolved data None =>
      stored_tasks w' = as_synced (default [] data)
      ∧ tasks w' = default [] data
      ∧ pendingSyncCount w' = 0
  | _ =>
      stored_tasks w' = written
      ∧ tasks w' = toTask uid <$> filterb (λ t : LocalTask, negb (is_deleted t)) written
      ∧ pendingSyncCount w' = length (filterb counts_as_pending written)
  end.
Proof.
  intros Hu Hon Hne. simpl.
  destruct (syncTasks_eq uid w Hu Hon Hne) as (v & w2 & reports & Hloop & ->).
  pose proof (sync_loop_log uid w) as Hlog. rewrite Hloop in Hlog.
  simpl in Hlog. rewrite Hloop. simpl.
  destruct (toasts_frame reports
              (pull_result E uid (exec (saveLocalTasks (localTasks v)) w2)))
    as (-> & -> & -> & _).
  unfold pull_result, exec, saveLocalTasks. simpl. rewrite Hlog.
  destruct_reply; simpl; try done.
  by rewrite as_synced_none_pending.
Qed.

End MorePush.

(** ** Connectivity events and invariants of the hook *)

Section Invariants.

Context (E : Env).

(** Going offline only lowers the flag; coming online only raises it, unless
    the hook was offline, in which case the auto-sync effect may run. *)
Lemma handleOffline_eq (w : World) :
  exec (handleOffline E) w = exec (setIsOnline false) w.
Proof.
  unfold handleOffline, autoSync. run. by destruct (isOnline w).
Qed.

Lemma handleOnline_cases (w : World) :
  exec (handleOnline E) w = exec (setIsOnline true) w
  ∨ (isOnline w = false ∧ is_Some (user w) ∧ 0 < pendingSyncCount w
     ∧ exec (handleOnline E) w
       = exec (syncTasks E)
           (exec (showToast (ToastInfo "Connection restored. Syncing tasks..."))
                 (exec (setIsOnline true) w))).
Proof.
  unfold handleOnline, autoSync. run.
  destruct (isOnline w); [by left|]. simpl.
  destruct (bool_decide (is_Some (user w))) eqn:Hu; [|by left].
  destruct (bool_decide (0 < pendingSyncCount w)) eqn:Hc; [|by left].
  apply bool_decide_eq_true in Hu, Hc. by right.
Qed.

(** An invariant of the single events is an invariant of their sequences. *)
Lemma run_events_inv (P : World → Prop) (Q : Event → Prop) :
  (∀ (e : Event) (w : World), Q e → P w → P (exec (run_event E e) w)) →
  ∀ (es : list Event) (w : World),
    Forall Q es → P w → P (exec (run_events E es) w).
Proof.
  intros Hstep es. induction es as [|e es IH]; intros w HQ HP; [done|].
  apply Forall_cons in HQ as [He Hes].
  unfold run_events, exec. simpl. unfold bind.
  pose proof (Hstep e w He HP) as H1. unfold exec in H1.
  destruct (run_event E e w) as [[] w1]. simpl in H1.
  by apply IH.
Qed.

(** A push pass, in all its cases. *)
Lemma syncTasks_cases (w : World) :
  syncTasks E w = (tt, w)
  ∨ exec (syncTasks E) w
    = exec (showToast (ToastSuccess "All tasks are synced")) w
  ∨ ∃ (uid : string) (v : SyncVars) (w2 : World) (reports : list toast),
      user w = Some uid
      ∧ same_session w w2
      ∧ exec (syncTasks E) w
        = exec (foldM (λ t _, showToast t) reports tt)
               (pull_result E uid (exec (saveLocalTasks (localTasks v)) w2)).
Proof.
  destruct (user w) as [uid|] eqn:Hu;
    [|left; unfold syncTasks; run; by rewrite Hu].
  destruct (isOnline w) eqn:Hon;
    [|left; unfold syncTasks; run; by rewrite Hu, Hon].
  destruct (filterb is_pending (stored_tasks w)) as [|t0 ps] eqn:Hps.
  - right. left. unfold syncTasks. run. rewrite Hu, Hon, Hps. simpl.
    by rewrite ?Hu, ?Hon.
  - right. right.
    destruct (syncTasks_eq E uid w Hu Hon) as (v & w2 & reports & Hloop & Heq).
    { by rewrite Hps. }
    exists uid, v, w2, reports. split; [done|]. split; [|done].
    pose proof (sync_fold_frame E uid (filterb is_pending (stored_tasks w))
                  (mkVars (stored_tasks w) 0 0) w) as [Hs _].
    fold (sync_loop E uid (stored_tasks w) w) in Hs. by rewrite Hloop in Hs.
Qed.

(** Preservation by the pieces the events are made of. *)
Lemma pull_result_counter (uid : string) (w : World) :
  counter_agrees w → counter_agrees (pull_result E uid w).
Proof. unfold pull_result, counter_agrees. by destruct_reply. Qed.

Lemma fetchTasks_counter (w : World) :
  counter_agrees w → counter_agrees (exec (fetchTasks E) w).
Proof.
  intros Hc. destruct (user w) as [uid|] eqn:Hu.
  - unfold exec. rewrite (fetchTasks_eq E uid w Hu). by apply pull_result_counter.
  - unfold fetchTasks. run. by rewrite Hu.
Qed.

Lemma toasts_counter (reports : list toast) (w : World) :
  counter_agrees w →
  counter_agrees (exec (foldM (λ t _, showToast t) reports tt) w).
Proof.
  unfold counter_agrees.
  destruct (toasts_frame reports w) as (-> & _ & -> & _). done.
Qed.

Lemma syncTasks_counter (w : World) :
  counter_agrees w → counter_agrees (exec (syncTasks E) w).
Proof.
  intros Hc.
  destruct (syncTasks_cases w)
    as [Heq | [Heq | (uid & v & w2 & reports & _ & _ & Heq)]].
  - unfold exec. by rewrite Heq.
  - by rewrite Heq.
  - rewrite Heq. by apply toasts_counter, pull_result_counter.
Qed.

Lemma run_event_counter (e : Event) (w : World) :
  counter_agrees w → counter_agrees (exec (run_event E e) w).
Proof.
  intros Hc. destruct e as [o | | | |]; simpl.
  - by apply run_op_counter.
  - by apply syncTasks_counter.
  - by apply fetchTasks_counter.
  - destruct (handleOnline_cases w) as [-> | (_ & _ & _ & ->)]; [done|].
    by apply syncTasks_counter.
  - by rewrite handleOffline_eq.
Qed.

(** X13. The pending counter agrees with the store after every sequence of
    events of the hook (mutations, manual syncs, pulls on mount or on a change
    notification, connectivity changes), in every order and whatever the
    gateway replies, once it agreed: it always is the number of stored
    records that are [pending] and not deleted. *)
Theorem counter_agrees_always (es : list Event) (w : World) :
  counter_agrees w → counter_agrees (exec (run_events E es) w).
Proof.
  intros Hc. apply (run_events_inv counter_agrees (λ _, True)); try done.
  - intros e w' _. apply run_event_counter.
  - by apply Forall_true.
Qed.

Lemma pull_result_coherent (uid : string) (w : World) :
  last_sync_coherent w → last_sync_coherent (pull_result E uid w).
Proof. unfold pull_result, last_sync_coherent. by destruct_reply. Qed.

Lemma syncTasks_coherent (w : World) :
  last_sync_coherent w → last_sync_coherent (exec (syncTasks E) w).
Proof.
  intros Hc.
  destruct (syncTasks_cases w)
    as [Heq | [Heq | (uid & v & w2 & reports & _ & Hs & Heq)]].
  - unfold exec. by rewrite Heq.
  - by rewrite Heq.
  - rewrite Heq. unfold last_sync_coherent.
    destruct (toasts_frame reports
                (pull_result E uid (exec (saveLocalTasks (localTasks v)) w2)))
      as (_ & _ & _ & _ & -> & -> & _).
    apply pull_result_coherent. unfold last_sync_coherent, exec. simpl.
    destruct Hs as (_ & _ & -> & _ & _ & _ & _ & -> & _). exact Hc.
Qed.

Lemma run_event_coherent (e : Event) (w : World) :
  last_sync_coherent w → last_sync_coherent (exec (run_event E e) w).
Proof.
  intros Hc. destruct e as [o | | | |]; simpl.
  - unfold last_sync_coherent.
    destruct (run_op_frame E w o) as (_ & _ & _ & -> & ->). exact Hc.
  - by apply syncTasks_coherent.
  - unfold onRemoteChange. destruct (user w) as [uid|] eqn:Hu.
    + unfold exec. rewrite (fetchTasks_eq E uid w Hu).
      by apply pull_result_coherent.
    + unfold fetchTasks. run. by rewrite Hu.
  - destruct (handleOnline_cases w) as [-> | (_ & _ & _ & ->)]; [done|].
    by apply syncTasks_coherent.
  - by rewrite handleOffline_eq.
Qed.

(** X14. The last sync time the hook shows is the one it persisted, after
    every sequence of events, once they agreed (the hook starts from the
    persisted value): the two are only ever written together, by a pull
    whose fetch succeeded. *)
Theorem last_sync_time_is_persisted (es : list Event) (w : World) :
  last_sync_coherent w → last_sync_coherent (exec (run_events E es) w).
Proof.
  intros Hc. apply (run_events_inv last_sync_coherent (λ _, True)); try done.
  - intros e w' _. apply run_event_coherent.
  - by apply Forall_true.
Qed.

Section VisibleList.

Hypothesis Hsel : select_filters_deleted E.

Lemma pull_result_shows (uid : string) (w : World) :
  shows_no_deleted (pull_result E uid w).
Proof.
  unfold pull_result, shows_no_deleted.
  destruct (gw_select E (net_log w)) as [msg | data [msg|]] eqn:Hr; simpl.
  - intros t (t0 & -> & Ht0)%list_elem_of_fmap.
    apply (list_elem_of_filter (λ x : LocalTask, negb (is_deleted x) = true))
      in Ht0 as [Hd _].
    simpl. by destruct (is_deleted t0).
  - intros t (t0 & -> & Ht0)%list_elem_of_fmap.
    apply (list_elem_of_filter (λ x : LocalTask, negb (is_deleted x) = true))
      in Ht0 as [Hd _].
    simpl. by destruct (is_deleted t0).
  - intros t Ht. by apply (Hsel (net_log w) data None t).
Qed.

Lemma syncTasks_shows (w : World) :
  shows_no_deleted w → shows_no_deleted (exec (syncTasks E) w).
Proof.
  intros Hc.
  destruct (syncTasks_cases w)
    as [Heq | [Heq | (uid & v & w2 & reports & _ & _ & Heq)]].
  - unfold exec. by rewrite Heq.
  - by rewrite Heq.
  - rewrite Heq. unfold shows_no_deleted.
    destruct (toasts_frame reports
                (pull_result E uid (exec (saveLocalTasks (localTasks v)) w2)))
      as (_ & -> & _).
    apply pull_result_shows.
Qed.

Lemma run_op_shows (o : UserOp) (w : World) :
  shows_no_deleted w → shows_no_deleted (exec (run_op E o) w).
Proof.
  intros Hc. destruct (user w) as [uid|] eqn:Hu;
    [|unfold exec; by rewrite run_op_signed_out].
  unfold shows_no_deleted.
  rewrite (run_op_tasks E uid w o Hu).
  destruct o as [t d | i u | i]; simpl.
  - intros x [-> | Hx]%elem_of_cons; [done | by apply Hc].
  - destruct (findIndex _ (stored_tasks w)); [|done].
    intros x (x0 & -> & Hx0)%list_elem_of_fmap.
    destruct (matches i x0); simpl; by apply Hc.
  - destruct (findIndex _ (stored_tasks w)); [|done].
    intros x Hx.
    apply (list_elem_of_filter (λ y : Task, negb (matches i y) = true)) in Hx
      as [_ Hx].
    by apply Hc.
Qed.

Lemma run_event_shows (e : Event) (w : World) :
  shows_no_deleted w → shows_no_deleted (exec (run_event E e) w).
Proof.
  intros Hc. destruct e as [o | | | |]; simpl.
  - by apply run_op_shows.
  - by apply syncTasks_shows.
  - unfold onRemoteChange. destruct (user w) as [uid|] eqn:Hu.
    + unfold exec. rewrite (fetchTasks_eq E uid w Hu). apply pull_result_shows.
    + unfold fetchTasks. run. by rewrite Hu.
  - destruct (handleOnline_cases w) as [-> | (_ & _ & _ & ->)]; [done|].
    by apply syncTasks_shows.
  - by rewrite handleOffline_eq.
Qed.

(** X15. When the gateway honours the filter of the select (it returns no
    row marked deleted), the visible list never holds a task marked deleted,
    after any sequence of events, once it held none. *)
Theorem deleted_tasks_are_never_shown (es : list Event) (w : World) :
  shows_no_deleted w → shows_no_deleted (exec (run_events E es) w).
Proof.
  intros Hc. apply (run_events_inv shows_no_deleted (λ _, True)); try done.
  - intros e w' _. apply run_event_shows.
  - by apply Forall_true.
Qed.

End VisibleList.

Lemma syncTasks_offline (w : World) :
  isOnline w = false → syncTasks E w = (tt, w).
Proof.
  intros Hoff. unfold syncTasks. run. rewrite Hoff. by destruct (user w).
Qed.

(** X16. While the hook believes it is offline it never writes to the
    server: after any sequence of mutations, manual syncs, refreshes and
    [offline] events that starts offline, the hook is still offline and every
    call it has made is a select (one for each refresh of a signed-in
    user). *)
Theorem offline_hook_never_writes_to_server (es : list Event) (w : World) :
  isOnline w = false →
  Forall (λ e, e ≠ EvOnline) es →
  let w' := exec (run_events E es) w in
  isOnline w' = false
  ∧ ∃ n : nat, net_log w' = net_log w ++ replicate n ReqSelect.
Proof.
  intros Hoff Hes. simpl.
  apply (run_events_inv
           (λ w', isOnline w' = false
                  ∧ ∃ n : nat, net_log w' = net_log w ++ replicate n ReqSelect)
           (λ e, e ≠ EvOnline)); try done.
  2:{ split; [done|]. exists 0. by rewrite app_nil_r. }
  clear. intros e w1 He [Hoff (n & Hn)].
  destruct e as [o | | | |]; simpl; try done.
  - destruct (run_op_frame E w1 o) as (_ & -> & _). split; [done|].
    exists n. destruct (user w1) as [uid|] eqn:Hu.
    + rewrite (run_op_log E uid w1 o Hu), Hoff.
      by rewrite app_nil_r.
    + unfold exec. by rewrite run_op_signed_out.
  - unfold exec. rewrite (syncTasks_offline w1 Hoff). eauto.
  - unfold onRemoteChange. destruct (user w1) as [uid|] eqn:Hu.
    + unfold exec. rewrite (fetchTasks_eq E uid w1 Hu). simpl. split.
      * unfold pull_result. by destruct_reply.
      * exists (S n). rewrite pull_result_log, Hn, <- app_assoc.
        by rewrite replicate_S_end.
    + unfold fetchTasks. run. rewrite Hu. simpl. eauto.
  - rewrite handleOffline_eq. simpl. eauto.
Qed.

End Invariants.

Section Reconnect.

Context (E : Env).

Lemma no_live_pending_iff (l : list LocalTask) :
  length (filterb counts_as_pending l) = 0
  ↔ ∀ t : LocalTask, t ∈ l → sync_status t = pending → is_deleted t = true.
Proof.
  rewrite length_zero_iff_nil. unfold filterb. split.
  - intros Hnil t Ht Hp. destruct (is_deleted t) eqn:Hd; [done|].
    exfalso.
    apply (filter_nil_not_elem_of (λ x : LocalTask, counts_as_pending x = true)
             l t Hnil); [|done].
    unfold counts_as_pending. rewrite Hd, bool_decide_eq_true_2; done.
  - intros Hall. apply elem_of_nil_inv. intros t Ht.
    apply (list_elem_of_filter (λ x : LocalTask, counts_as_pending x = true))
      in Ht as [Hc Ht].
    unfold counts_as_pending in Hc. apply andb_true_iff in Hc as [Hp Hd].
    apply bool_decide_eq_true in Hp. rewrite (Hall t Ht Hp) in Hd. done.
Qed.

(** X17. Coming back online does not push pending deletions on its own:
    when the counter agrees with the store and every pending record of the
    store is a deletion, the [online] event only raises the connectivity
    flag; no toast, no call, no change to the store. *)
Theorem reconnect_ignores_pending_deletions (w : World) :
  counter_agrees w →
  (∀ t : LocalTask, t ∈ stored_tasks w → sync_status t = pending →
     is_deleted t = true) →
  handleOnline E w = (tt, exec (setIsOnline true) w).
Proof.
  intros Hc Hall. apply no_live_pending_iff in Hall.
  unfold counter_agrees in Hc. rewrite Hall in Hc.
  unfold handleOnline, autoSync. run. rewrite Hc.
  destruct (isOnline w); [done|]. simpl.
  by rewrite andb_false_r.
Qed.

Lemma handleOnline_fires (w : World) :
  isOnline w = false → is_Some (user w) → 0 < pendingSyncCount w →
  exec (handleOnline E) w
  = exec (syncTasks E)
      (exec (showToast (ToastInfo "Connection restored. Syncing tasks..."))
            (exec (setIsOnline true) w)).
Proof.
  intros Hoff Hu Hc. unfold handleOnline, autoSync. run. rewrite Hoff. simpl.
  by rewrite !bool_decide_eq_true_2.
Qed.

(** X18. A task created offline is pushed when connectivity returns. For a
    signed-in user whose hook is offline, a create followed by the [online]
    event makes these calls and no other: those of the records that were
    already pending, in store order, then the insert of the new task (its
    title, its description with the empty string turned into null,
    [completed] false), then the select of the closing pull. *)
Theorem offline_create_is_pushed_on_reconnect (uid : string) (w : World)
    (title_ : string) (description_ : option string) :
  user w = Some uid → isOnline w = false →
  net_log (exec (run_events E [EvMutation (OpCreate title_ description_);
                               EvOnline]) w)
  = net_log w
    ++ omap (request_of uid) (filterb is_pending (stored_tasks w))
    ++ [ReqInsert (mkInsert title_ (truthy description_) (Some false) uid);
        ReqSelect].
Proof.
  intros Hu Hoff.
  set (new := new_task E w title_ description_).
  set (l1 := stored_tasks w ++ [new]).
  assert (Hpend : filterb is_pending l1
                  = filterb is_pending (stored_tasks w) ++ [new]).
  { unfold l1, filterb. by rewrite filter_app. }
  assert (Hcreate : ∃ w1 : World,
            createTask E title_ description_ w = (tt, w1)
            ∧ user w1 = Some uid ∧ isOnline w1 = false
            ∧ stored_tasks w1 = l1 ∧ net_log w1 = net_log w
            ∧ pendingSyncCount w1 = length (filterb counts_as_pending l1)).
  { unfold createTask. run. rewrite Hu. simpl. rewrite Hoff.
    eexists. split; [reflexivity|]. simpl. by rewrite ?Hu, ?Hoff. }
  destruct Hcreate as (w1 & Hc1 & Hu1 & Hoff1 & Hs1 & Hn1 & Hp1).
  unfold run_events, exec. simpl. unfold bind. rewrite Hc1.
  fold (exec (handleOnline E) w1).
  destruct (handleOnline E w1) as [[] w2] eqn:Hh. simpl.
  assert (Hw2 : w2 = exec (handleOnline E) w1) by (unfold exec; by rewrite Hh).
  rewrite Hw2, handleOnline_fires; try done.
  - rewrite (syncTasks_log E uid); try done.
    set (w1' := exec (showToast _) (exec (setIsOnline true) w1)).
    assert (Hs1' : stored_tasks w1' = stored_tasks w1) by reflexivity.
    assert (Hn1' : net_log w1' = net_log w1) by reflexivity.
    rewrite Hs1', Hn1', Hs1, Hn1, Hpend.
    assert (Hm : ∀ l : list LocalTask, l ≠ [] →
              match l with
              | [] => []
              | x :: l0 => omap (request_of uid) (x :: l0) ++ [ReqSelect]
              end = omap (request_of uid) l ++ [ReqSelect])
      by (by intros [|? ?] ?).
    rewrite Hm by (intros Hx; by apply app_eq_nil in Hx as [_ ?]).
    rewrite omap_app, <- !app_assoc. done.
  - rewrite Hp1. unfold l1, filterb. rewrite filter_app, length_app.
    assert (length (filter (λ x : LocalTask, counts_as_pending x = true) [new]) = 1)
      as -> by reflexivity.
    lia.
Qed.

(** X19. Once the counter agrees with the store, the badge reads "All
    synced" exactly when no stored record is both [pending] and live: failed
    records ([error]) and pending deletions do not keep it from saying so. *)
Theorem all_synced_badge_ignores_errors_and_deletions (w : World) :
  counter_agrees w →
  syncBadge (pendingSyncCount w) = BadgeAllSynced
  ↔ ∀ t : LocalTask, t ∈ stored_tasks w → sync_status t = pending →
      is_deleted t = true.
Proof.
  intros Hc. rewrite <- no_live_pending_iff, <- Hc. unfold syncBadge.
  case_bool_decide; split; try done; lia.
Qed.

End Reconnect.

(** ** The further properties on the sample runs *)

(** The store of the sample world holds ids "a" (pushed as "srv-a") and "b".
    "zzz" names neither, and both calls do nothing; "srv-a" is the server id
    of the first record only, and both calls write that record. *)
Lemma target_by_id_or_server_id_else_noop_witness :
  let first := Sample.local "a" "A" 50 (Some "srv-a") synced in
  let w := Sample.world [first; Sample.local "b" "B" 60 None pending] true in
  let u := mkUpdates (Some "T") None None in
  (updateTask Sample.offline_env "zzz" u w = (tt, w)
   ∧ deleteTask Sample.offline_env "zzz" w = (tt, w))
  ∧ (stored_tasks (exec (updateTask Sample.offline_env "srv-a" u) w)
       = <[0 := updated_task Sample.offline_env w u first]> (stored_tasks w)
     ∨ ∃ ts : timestamp,
         stored_tasks (exec (updateTask Sample.offline_env "srv-a" u) w)
           = <[0 := mkLocal (with_last_synced_at (Some ts)
                               (updated_task Sample.offline_env w u first)) synced]>
               (stored_tasks w))
  ∧ (stored_tasks (exec (deleteTask Sample.offline_env "srv-a") w)
       = <[0 := tombstone_of Sample.offline_env w first]> (stored_tasks w)
     ∨ stored_tasks (exec (deleteTask Sample.offline_env "srv-a") w)
       = delete 0 (stored_tasks w))
  ∧ ∀ t : Task, t ∈ tasks (exec (deleteTask Sample.offline_env "srv-a") w) →
      id t ≠ "srv-a" ∧ server_id t ≠ Some "srv-a".
Proof.
  intros first w u. split.
  - apply (proj1 (target_by_id_or_server_id_else_noop Sample.offline_env "zzz" u w)).
    intros t Ht. simpl in Ht.
    repeat (apply elem_of_cons in Ht as [-> | Ht]; [split; simpl; discriminate|]).
    by apply elem_of_nil in Ht.
  - apply (proj2 (target_by_id_or_server_id_else_noop Sample.offline_env "srv-a" u w)
             "user-1" 0 first).
    + reflexivity.
    + reflexivity.
    + right. reflexivity.
    + intros j y _ Hlt. lia.
Defined.

Lemma pull_sample_filters_deleted : select_filters_deleted PullSample.env.
Proof.
  intros h data err row Hr Hin. simpl in Hr. injection Hr as <- <-.
  simpl in Hin. apply list_elem_of_singleton in Hin. by subst row.
Qed.

Lemma successful_pull_resets_hook_witness :
  tasks (exec (fetchTasks PullSample.env) PullSample.world)
    = [Sample.row "X" "X-old" 20]
  ∧ pendingSyncCount (exec (fetchTasks PullSample.env) PullSample.world) = 0.
Proof.
  destruct (successful_pull_resets_hook PullSample.env "user-1" PullSample.world
              (Some [Sample.row "X" "X-old" 20]) eq_refl eq_refl)
    as (Ht & _ & Hc & _).
  split; assumption.
Defined.

Lemma signed_out_is_inert_witness :
  let w := initial_world None true in
  fetchTasks PushSample.accepting w = (tt, w)
  ∧ syncTasks PushSample.accepting w = (tt, w)
  ∧ run_op PushSample.accepting (OpCreate "A" None) w = (tt, w).
Proof.
  intros w. apply (signed_out_is_inert PushSample.accepting w). reflexivity.
Defined.

Lemma visible_list_ignores_network_witness :
  tasks (exec (run_op PushSample.accepting (OpDelete "a")) ViewSample.world)
  = visible_after PushSample.accepting "user-1" ViewSample.world (OpDelete "a").
Proof.
  apply (visible_list_ignores_network PushSample.accepting "user-1"). reflexivity.
Defined.

Lemma mutation_makes_one_call_witness :
  net_log (exec (run_op PushSample.accepting (OpDelete "a")) ViewSample.world)
  = net_log ViewSample.world
    ++ (if isOnline ViewSample.world
        then option_list (mutation_request "user-1" ViewSample.world (OpDelete "a"))
        else []).
Proof.
  apply (mutation_makes_one_call PushSample.accepting "user-1"). reflexivity.
Defined.

Lemma toggle_moves_task_to_other_tab_witness :
  let w' := exec (handleToggleComplete Sample.offline_env ViewSample.shown)
                 ViewSample.world in
  ∃ t' : LocalTask, stored_tasks w' !! 0 = Some t' ∧ completed t' = true.
Proof.
  destruct (toggle_moves_task_to_other_tab Sample.offline_env "user-1"
              ViewSample.world ViewSample.shown 0 ViewSample.stored
              eq_refl eq_refl)
    as [(t' & Hk & Hc & _) _].
  exists t'. split; assumption.
Defined.


Lemma delete_hides_task_witness :
  tasks (exec (handleDelete Sample.offline_env ViewSample.shown) ViewSample.world)
  = filterb (λ t : Task, negb (matches (id ViewSample.shown) t))
            (tasks ViewSample.world).
Proof.
  destruct (delete_hides_task Sample.offline_env "user-1" ViewSample.world
              ViewSample.shown 0 ViewSample.stored eq_refl eq_refl)
    as [Ht _].
  exact Ht.
Defined.

Lemma mutation_spares_other_records_witness :
  let t := Sample.local "b" "B" 60 None pending in
  t ∈ stored_tasks (exec (updateTask PushSample.accepting "a"
                            (mkUpdates (Some "A2") None None)) PushSample.world)
  ∧ t ∈ stored_tasks (exec (deleteTask PushSample.accepting "a") PushSample.world).
Proof.
  intros t.
  apply (mutation_spares_other_records PushSample.accepting PushSample.world "a").
  - apply list_elem_of_further, list_elem_of_here.
  - reflexivity.
Defined.

Lemma online_create_is_confirmed_witness :
  let w := Sample.world [] true in
  stored_tasks (exec (createTask PushSample.accepting "A" None) w)
  = stored_tasks w ++
      [mkLocal (with_last_synced_at
                  (Some (clock PushSample.accepting (S (S (clock_reads w)))))
                  (with_server_id (Some "srv-1")
                     (new_task PushSample.accepting w "A" None)))
               synced].
Proof.
  intros w.
  destruct (online_create_is_confirmed PushSample.accepting "user-1" w "A" None
              (Sample.row "srv-1" "A" 70) eq_refl eq_refl eq_refl)
    as (Hs & _).
  - intros t Ht. by apply elem_of_nil in Ht.
  - exact Hs.
Defined.

Lemma push_loop_result_witness :
  ∃ ts : timestamp,
    localTasks (fst (sync_loop PushSample.partial "user-1" PushSample.store
                               PushSample.world)) !! 1
    = Some (push_result PushSample.partial "user-1"
              (Sample.local "b" "B" 60 None pending)
              (net_log PushSample.world
               ++ omap (request_of "user-1")
                       (take 1 (filterb is_pending PushSample.store))) ts).
Proof.
  apply (push_loop_result PushSample.partial "user-1" PushSample.store
           PushSample.world 1 1 (Sample.local "b" "B" 60 None pending)
           sample_store_NoDup); reflexivity.
Defined.

Lemma pushed_creation_gets_server_id_witness :
  ∃ t' : LocalTask,
    localTasks (fst (sync_loop PushSample.partial "user-1" PushSample.store
                               PushSample.world)) !! 1 = Some t'
    ∧ sync_status t' = synced
    ∧ server_id t' = Some "srv-b".
Proof.
  destruct (pushed_creation_gets_server_id PushSample.partial "user-1"
              PushSample.store PushSample.world 1 1
              (Sample.local "b" "B" 60 None pending)
              (Sample.row "srv-b" "B" 70) None
              sample_store_NoDup eq_refl eq_refl eq_refl eq_refl eq_refl)
    as (t' & Hk & Hs & Hid & _).
  exists t'. repeat split; assumption.
Defined.

Lemma push_pass_calls_then_pulls_witness :
  net_log (exec (syncTasks PushSample.partial) PushSample.world)
  = net_log PushSample.world ++
      match filterb is_pending (stored_tasks PushSample.world) with
      | [] => []
      | ps => omap (request_of "user-1") ps ++ [ReqSelect]
      end.
Proof.
  apply (push_pass_calls_then_pulls PushSample.partial "user-1"); reflexivity.
Defined.

Lemma push_pass_outcome_witness :
  stored_tasks (exec (syncTasks PushSample.partial) PushSample.world)
  = localTasks (fst (sync_loop PushSample.partial "user-1"
                       (stored_tasks PushSample.world) PushSample.world)).
Proof.
  pose proof (push_pass_outcome PushSample.partial "user-1" PushSample.world
                eq_refl eq_refl) as H.
  simpl in H. destruct H as (Hs & _); [discriminate|]. exact Hs.
Defined.

Lemma counter_agrees_always_witness :
  counter_agrees
    (exec (run_events PushSample.partial
             [EvMutation (OpCreate "A" None); EvOffline;
              EvMutation (OpCreate "B" None); EvOnline; EvRefresh; EvSyncNow])
          (initial_world (Some "user-1") true)).
Proof. apply (counter_agrees_always PushSample.partial). reflexivity. Defined.

Lemma last_sync_time_is_persisted_witness :
  last_sync_coherent
    (exec (run_events PullSample.env
             [EvRefresh; EvMutation (OpCreate "A" None); EvSyncNow])
          (initial_world (Some "user-1") true)).
Proof. apply (last_sync_time_is_persisted PullSample.env). reflexivity. Defined.

Lemma deleted_tasks_are_never_shown_witness :
  shows_no_deleted
    (exec (run_events PullSample.env
             [EvRefresh; EvMutation (OpDelete "X"); EvSyncNow])
          (initial_world (Some "user-1") true)).
Proof.
  apply (deleted_tasks_are_never_shown PullSample.env pull_sample_filters_deleted).
  intros t Ht. by apply elem_of_nil in Ht.
Defined.

Lemma offline_hook_never_writes_to_server_witness :
  let w' := exec (run_events PushSample.accepting
                    [EvMutation (OpCreate "A" None); EvSyncNow; EvRefresh;
                     EvMutation (OpDelete "uuid-0"); EvOffline])
                 OfflineSample.start in
  isOnline w' = false
  ∧ ∃ n : nat, net_log w' = net_log OfflineSample.start ++ replicate n ReqSelect.
Proof.
  apply (offline_hook_never_writes_to_server PushSample.accepting);
    [reflexivity|].
  repeat (constructor; [by simpl|]). constructor.
Defined.

Lemma reconnect_ignores_pending_deletions_witness :
  let w := Sample.world [PushSample.tombstone] false in
  handleOnline PushSample.accepting w = (tt, exec (setIsOnline true) w).
Proof.
  intros w. apply (reconnect_ignores_pending_deletions PushSample.accepting w);
    [reflexivity|].
  intros t Ht _. simpl in Ht. apply list_elem_of_singleton in Ht. by subst t.
Defined.

Lemma offline_create_is_pushed_on_reconnect_witness :
  net_log (exec (run_events PushSample.accepting
                   [EvMutation (OpCreate "A" (Some "")); EvOnline])
                OfflineSample.start)
  = net_log OfflineSample.start
    ++ omap (request_of "user-1")
            (filterb is_pending (stored_tasks OfflineSample.start))
    ++ [ReqInsert (mkInsert "A" (truthy (Some "")) (Some false) "user-1");
        ReqSelect].
Proof.
  apply (offline_create_is_pushed_on_reconnect PushSample.accepting "user-1");
    reflexivity.
Defined.

Lemma all_synced_badge_ignores_errors_and_deletions_witness :
  syncBadge (pendingSyncCount ViewSample.stale) = BadgeAllSynced
  ↔ ∀ t : LocalTask, t ∈ stored_tasks ViewSample.stale →
      sync_status t = pending → is_deleted t = true.
Proof.
  apply (all_synced_badge_ignores_errors_and_deletions ViewSample.stale).
  reflexivity.
Defined.
